(** * Gate-pass backend (src/app.py): a shallow embedding and its properties

    The Flask handlers of [src/app.py] are embedded as functions over an
    explicit document store.  What the handlers read from their surroundings
    is an input of the model:
    - [request.method], the [Authorization] header and the value that
      [request.json] evaluates to are fields of [request];
    - [uuid.uuid4()] and the successive [datetime.now().isoformat()] calls
      of one request are fields of [env];
    - the Firestore collection [gate_pass_requests] is a finite map from
      document identifiers to documents, a document being a finite map from
      field names to JSON values.  Reading the store always succeeds in
      the model; a write fails when the client's encoder, the field
      [encode_error] of [env], refuses the data, and then writes nothing.

    Python exceptions are values of [result]; the [try/except Exception]
    around each handler body is [try_except]. *)

From Stdlib Require Import ZArith Ascii String.
From stdpp Require Import gmap strings list fin_maps.

#[local] Set Warnings "-register-all".
#[local] Open Scope Z_scope.

(** ** Python values and the operations the handlers apply to them *)

Module Py.

(** What [request.json] can evaluate to, and what a document field holds.
    [JNum] stands for a JSON number: the handlers only test a number for
    truth, where a fractional number behaves as a non-zero integer does. *)
Inductive json :=
| JNull
| JBool (b : bool)
| JNum (n : Z)
| JStr (s : string)
| JArr (l : list json)
| JObj (m : gmap string json).

Inductive exn :=
| TypeError (msg : string)
| AttributeError (msg : string)
| KeyError (msg : string)
| IndexError (msg : string)
| ValueError (msg : string).

(** [str(e)] *)
Definition str_exn (e : exn) : string :=
  match e with
  | TypeError m | AttributeError m | IndexError m | ValueError m => m
  | KeyError m => "'" +:+ m +:+ "'"
  end.

Inductive result (A : Type) :=
| Ok (a : A)
| Raise (e : exn).
Arguments Ok {A} a.
Arguments Raise {A} e.

(** [type(x).__name__] *)
Definition type_name (x : json) : string :=
  match x with
  | JNull => "NoneType"
  | JBool _ => "bool"
  | JNum _ => "int"
  | JStr _ => "str"
  | JArr _ => "list"
  | JObj _ => "dict"
  end.

(** [bool(x)], as tested by [if not x] *)
Definition truthy (x : json) : bool :=
  match x with
  | JNull => false
  | JBool b => b
  | JNum n => negb (n =? 0)
  | JStr s => negb (String.eqb s "")
  | JArr l => match l with [] => false | _ => true end
  | JObj m => match map_to_list m with [] => false | _ => true end
  end.

(** [x == s] for a string [s]: only an equal string is equal to it *)
Definition eq_str (x : json) (s : string) : bool :=
  match x with
  | JStr t => String.eqb t s
  | _ => false
  end.

(** [x in [s1, ..., sn]] for a list of string literals *)
Definition in_strs (x : json) (l : list string) : bool :=
  existsb (eq_str x) l.

(** [sub in s] on strings: [sub] occurs in [s] *)
Fixpoint contains (sub s : string) : bool :=
  String.prefix sub s ||
  match s with
  | EmptyString => false
  | String _ s' => contains sub s'
  end.

(** [k in x] for a string [k] *)
Definition py_in (k : string) (x : json) : result bool :=
  match x with
  | JObj m => Ok (bool_decide (is_Some (m !! k)))
  | JArr l => Ok (existsb (fun y => eq_str y k) l)
  | JStr s => Ok (contains k s)
  | _ => Raise (TypeError ("argument of type '" +:+ type_name x +:+ "' is not iterable"))
  end.

(** [x[k]] for a string [k] *)
Definition py_getitem (x : json) (k : string) : result json :=
  match x with
  | JObj m => match m !! k with
              | Some v => Ok v
              | None => Raise (KeyError k)
              end
  | JArr _ => Raise (TypeError "list indices must be integers or slices, not str")
  | JStr _ => Raise (TypeError "string indices must be integers")
  | _ => Raise (TypeError ("'" +:+ type_name x +:+ "' object is not subscriptable"))
  end.

(** [x.get(k, dflt)] *)
Definition py_get (x : json) (k : string) (dflt : json) : result json :=
  match x with
  | JObj m => Ok (default dflt (m !! k))
  | _ => Raise (AttributeError
                  ("'" +:+ type_name x +:+ "' object has no attribute 'get'"))
  end.

(** [x.update(new)]; the new entries win *)
Definition py_update (x : json) (new : gmap string json) : result json :=
  match x with
  | JObj m => Ok (JObj (new ∪ m))
  | _ => Raise (AttributeError
                  ("'" +:+ type_name x +:+ "' object has no attribute 'update'"))
  end.

(** [c.lower()] on one byte: A-Z are lowered and every other byte is kept.
    Python also lowers letters outside ASCII, never to a text of ASCII
    letters that has one of p, e, n, d, i, g, a, r, o, v, j, c, t for it, so
    a text is lowered to one of the three counted status names here exactly
    when it is in Python. *)
Definition lower_ascii (c : ascii) : ascii :=
  let n := N_of_ascii c in
  if ((65 <=? n) && (n <=? 90))%N then ascii_of_N (n + 32) else c.

Fixpoint lower_str (s : string) : string :=
  match s with
  | EmptyString => EmptyString
  | String c s' => String (lower_ascii c) (lower_str s')
  end.

(** [x.lower()] *)
Definition py_lower (x : json) : result string :=
  match x with
  | JStr s => Ok (lower_str s)
  | _ => Raise (AttributeError
                  ("'" +:+ type_name x +:+ "' object has no attribute 'lower'"))
  end.

(** [c.isspace()].  Strings are the UTF-8 bytes of the Python text, so a
    white-space character is one byte (U+0009-000D, U+001C-0020), two bytes
    (U+0085, U+00A0) or three (U+1680, U+2000-200A, U+2028, U+2029, U+202F,
    U+205F, U+3000). *)
Definition is_space (c : ascii) : bool :=
  let n := N_of_ascii c in
  ((9 <=? n) && (n <=? 13) || (28 <=? n) && (n <=? 32))%N.

Definition is_space2 (c1 c2 : ascii) : bool :=
  let a := N_of_ascii c1 in
  let b := N_of_ascii c2 in
  ((a =? 194) && ((b =? 133) || (b =? 160)))%N.

Definition is_space3 (c1 c2 c3 : ascii) : bool :=
  let a := N_of_ascii c1 in
  let b := N_of_ascii c2 in
  let c := N_of_ascii c3 in
  ((a =? 225) && (b =? 154) && (c =? 128)
   || (a =? 226) && (b =? 128) &&
        ((128 <=? c) && (c <=? 138) || (c =? 168) || (c =? 169) || (c =? 175))
   || (a =? 226) && (b =? 129) && (c =? 159)
   || (a =? 227) && (b =? 128) && (c =? 128))%N.

(** Dropping the leading white space; [sp2] and [sp3] recognise the two-byte
    and three-byte characters in the order the bytes are met. *)
Fixpoint lstrip_by (sp2 : ascii → ascii → bool)
    (sp3 : ascii → ascii → ascii → bool) (s : string) : string :=
  match s with
  | EmptyString => EmptyString
  | String a r =>
      if is_space a then lstrip_by sp2 sp3 r
      else
        match r with
        | String b r2 =>
            if sp2 a b then lstrip_by sp2 sp3 r2
            else
              match r2 with
              | String c r3 =>
                  if sp3 a b c then lstrip_by sp2 sp3 r3 else s
              | EmptyString => s
              end
        | EmptyString => s
        end
  end.

(** [s.lstrip()] *)
Definition lstrip (s : string) : string := lstrip_by is_space2 is_space3 s.

(** [s.strip()]: the trailing white space is dropped on the reversed
    string, where the bytes of a character come last byte first. *)
Definition strip (s : string) : string :=
  String.rev
    (lstrip_by (fun b a => is_space2 a b) (fun c b a => is_space3 a b c)
       (String.rev (lstrip s))).

(** [s.split(sep)] for a one-character separator *)
Fixpoint split (sep : ascii) (s : string) : list string :=
  match s with
  | EmptyString => [EmptyString]
  | String c s' =>
      if Ascii.eqb c sep then EmptyString :: split sep s'
      else match split sep s' with
           | [] => [String c EmptyString]
           | w :: ws => String c w :: ws
           end
  end.

(** [l[i]] on a list *)
Definition py_index {A} (l : list A) (i : nat) : result A :=
  match l !! i with
  | Some x => Ok x
  | None => Raise (IndexError "list index out of range")
  end.

(** A dict literal with distinct keys *)
Definition dict (kvs : list (string * json)) : gmap string json :=
  list_to_map kvs.

End Py.
Import Py.

(** ** The document store *)

Abbreviation doc := (gmap string json).
Abbreviation store := (gmap string doc).

Module Firestore.

(** Computations that read and write the store and may raise.  A raised
    exception keeps the writes made before it. *)
Definition M (A : Type) : Type := store → result A * store.

Definition ret {A} (a : A) : M A := fun s => (Ok a, s).

Definition bind {A B} (m : M A) (k : A → M B) : M B :=
  fun s => match m s with
           | (Ok a, s') => k a s'
           | (Raise e, s') => (Raise e, s')
           end.

Definition lift {A} (r : result A) : M A := fun s => (r, s).

(** [try: m  except Exception as e: h e] *)
Definition try_except {A} (m : M A) (h : exn → A) : store → A * store :=
  fun s => match m s with
           | (Ok a, s') => (a, s')
           | (Raise e, s') => (h e, s')
           end.

(** [doc_ref.get()]: [None] when [doc.exists] is false *)
Definition doc_get (id : string) : M (option doc) :=
  fun s => (Ok (s !! id), s).

(** [document(id).set(data)] replaces the whole document.  [encoder] is
    the client's encoder: the exception that it raises for data it cannot
    send (an integer outside 64 bits, an empty field name), if any; nothing
    is written then. *)
Definition doc_set (encoder : doc → option exn) (id : string) (data : json)
  : M unit :=
  fun s => match data with
           | JObj m =>
               match encoder m with
               | Some ex => (Raise ex, s)
               | None => (Ok tt, <[id := m]> s)
               end
           | _ => (Raise (TypeError "document data must be a dict"), s)
           end.

(** [doc_ref.update(fields)] overwrites the given fields and keeps the
    others; it writes nothing when [encoder] refuses the fields. *)
Definition doc_update (encoder : doc → option exn) (id : string)
    (fields : doc) : M unit :=
  fun s => match encoder fields with
           | Some ex => (Raise ex, s)
           | None =>
               match s !! id with
               | Some d => (Ok tt, <[id := fields ∪ d]> s)
               | None => (Raise (KeyError id), s)
               end
           end.

(** The documents of the collection, each with its identifier *)
Definition stream (s : store) : list (string * doc) := map_to_list s.

(** [.where(field_path=field, op_string="==", value=v)] for a string [v] *)
Definition where_eq (field v : string) (l : list (string * doc))
  : list (string * doc) :=
  List.filter (fun p => match p.2 !! field with
                        | Some x => eq_str x v
                        | None => false
                        end) l.

(** The order of field values: by type first (null, boolean, number,
    string, array, map), then by value.  Arrays and maps are not compared
    further. *)
Definition type_rank (x : json) : Z :=
  match x with
  | JNull => 0 | JBool _ => 1 | JNum _ => 2 | JStr _ => 3
  | JArr _ => 4 | JObj _ => 5
  end.

Definition value_compare (x y : json) : comparison :=
  match x, y with
  | JBool a, JBool b => Bool.compare a b
  | JNum a, JNum b => Z.compare a b
  | JStr a, JStr b => String.compare a b
  | _, _ => Z.compare (type_rank x) (type_rank y)
  end.

Fixpoint insert_desc (field : string) (p : string * doc)
    (l : list (string * doc)) : list (string * doc) :=
  match l with
  | [] => [p]
  | q :: l' =>
      match p.2 !! field, q.2 !! field with
      | Some x, Some y =>
          match value_compare y x with
          | Lt => p :: q :: l'
          | _ => q :: insert_desc field p l'
          end
      | _, _ => q :: insert_desc field p l'
      end
  end.

(** [.order_by(field, direction=DESCENDING)]: documents without the field
    are left out *)
Definition order_by_desc (field : string) (l : list (string * doc))
  : list (string * doc) :=
  foldr (insert_desc field) []
        (List.filter (fun p => bool_decide (is_Some (p.2 !! field))) l).

(** [safe_firestore_query(query_ref)]: the documents that the query
    [query], applied to the collection, selects *)
Definition safe_firestore_query
    (query : list (string * doc) → list (string * doc))
  : M (list (string * doc)) :=
  fun s => (Ok (query (stream s)), s).

End Firestore.
Import Firestore.

Notation "'let*' x ':=' m 'in' k" := (bind m (fun x => k))
  (at level 10, x binder, m at level 100, k at level 200).

(** ** Requests, responses and what a handler reads from outside *)

Record request := {
  req_method : string;                 (* request.method *)
  req_authorization : option string;   (* request.headers.get('Authorization') *)
  req_json : json                      (* request.json *)
}.

Record response := {
  body : json;
  code : nat
}.

Record env := {
  uuid4 : string;      (* str(uuid.uuid4()) *)
  now : nat → string;  (* the i-th datetime.now().isoformat() of the request *)
  encode_error : doc → option exn
                       (* what the store client raises for data it cannot
                          send, if anything *)
}.

Abbreviation handler := (env → request → store → response * store).

(** [jsonify({...}), status] *)
Definition jsonify (kvs : list (string * json)) (status : nat) : response :=
  {| body := JObj (dict kvs); code := status |}.

(** [jsonify([...]), status] *)
Definition jsonify_list (l : list json) (status : nat) : response :=
  {| body := JArr l; code := status |}.

Definition SECRET_TOKEN : string := "default_secret_token".

Definition is_options (req : request) : bool :=
  String.eqb (req_method req) "OPTIONS".

(** The 500 of the application's error handler, for an exception that no
    handler catches *)
Definition internal_error : response :=
  jsonify [("error", JStr "Internal server error")] 500.

(** ** The handlers *)

Definition opt_json (o : option string) : json :=
  match o with
  | Some s => JStr s
  | None => JNull
  end.

(** The decorator: [check_authentication f] is the [wrapper] that is
    registered as the view in place of [f]. *)
Definition check_authentication (f : handler) : handler :=
  fun e req s =>
    if is_options req then (jsonify [("status", JStr "ok")] 200, s)
    else
      let auth_header := req_authorization req in
      match auth_header with
      | Some h =>
          if negb (String.eqb h "") && String.prefix "Bearer " h then
            match py_index (split " " h) 1 with
            | Ok token =>
                if negb (String.eqb token SECRET_TOKEN) then
                  (jsonify [("error", JStr "Unauthorized");
                            ("received_token", JStr token);
                            ("expected_token", JStr SECRET_TOKEN)] 401, s)
                else f e req s
            | Raise _ => (internal_error, s)
            end
          else
            (jsonify [("error", JStr "Invalid or missing authorization header");
                      ("received_header", opt_json auth_header)] 401, s)
      | None =>
          (jsonify [("error", JStr "Invalid or missing authorization header");
                    ("received_header", opt_json auth_header)] 401, s)
      end.

Definition required_fields : list string :=
  ["pass_type"; "prn_number"; "department"; "name";
   "wing"; "room_number"; "reason"; "phone_no";
   "proposed_visit"; "outing_dates"].

(** The loop [for field in required_fields: if field not in data: return]:
    the first missing field, if any *)
Fixpoint first_missing (fields : list string) (data : json)
  : result (option string) :=
  match fields with
  | [] => Ok None
  | field :: rest =>
      match py_in field data with
      | Ok true => first_missing rest data
      | Ok false => Ok (Some field)
      | Raise e => Raise e
      end
  end.

Definition submit_gate_pass : handler :=
  fun e req =>
    if is_options req then fun s => (jsonify [("status", JStr "ok")] 200, s)
    else
      try_except
        (let data := req_json req in
         if negb (truthy data) then
           ret (jsonify [("error", JStr "No data provided")] 400)
         else
           let* missing := lift (first_missing required_fields data) in
           match missing with
           | Some field =>
               ret (jsonify [("error", JStr ("Missing field: " +:+ field))] 400)
           | None =>
               let* pass_type := lift (py_getitem data "pass_type") in
               if negb (in_strs pass_type ["local"; "leave"]) then
                 ret (jsonify [("error",
                        JStr "Invalid pass type. Must be 'local' or 'leave'")] 400)
               else
                 let gate_pass_id := uuid4 e in
                 let* data := lift (py_update data
                          (dict [("timestamp", JStr (now e 0));
                                 ("status", JStr "Pending");
                                 ("created_at", JStr (now e 1));
                                 ("updated_at", JStr (now e 2))])) in
                 let* _ := doc_set (encode_error e) gate_pass_id data in
                 let* type := lift (py_getitem data "pass_type") in
                 ret (jsonify [("message", JStr "Gate Pass Submitted");
                               ("id", JStr gate_pass_id);
                               ("type", type)] 201)
           end)
        (fun ex => jsonify [("error", JStr (str_exn ex))] 500).

(** [data = doc.to_dict(); data['id'] = doc.id] *)
Definition with_id (p : string * doc) : json :=
  JObj (<["id" := JStr p.1]> p.2).

Definition get_gate_pass_status (prn_number : string) : handler :=
  fun e req =>
    if is_options req then fun s => (jsonify [("status", JStr "ok")] 200, s)
    else
      try_except
        (if String.eqb prn_number "" || String.eqb (strip prn_number) "" then
           ret (jsonify [("error", JStr "Invalid PRN number")] 400)
         else
           let query := fun l =>
             order_by_desc "timestamp" (where_eq "prn_number" prn_number l) in
           let* found := safe_firestore_query query in
           let gate_pass_list := map with_id found in
           if negb (truthy (JArr gate_pass_list)) then
             ret (jsonify_list [] 200)
           else
             ret (jsonify_list gate_pass_list 200))
        (fun ex => jsonify [("error", JStr "Internal server error");
                            ("message", JStr (str_exn ex));
                            ("details", JStr "traceback")] 500).

(** The function [update_gate_pass] as written; the registered view is
    [update_gate_pass_view] below. *)
Definition update_gate_pass (gate_pass_id : string) : handler :=
  fun e req =>
    if is_options req then fun s => (jsonify [("status", JStr "ok")] 200, s)
    else
      try_except
        (let data := req_json req in
         let* status := lift (py_get data "status" JNull) in
         let* reason := lift (py_get data "reason" (JStr "")) in
         if negb (in_strs status ["Approved"; "Rejected"]) then
           ret (jsonify [("error", JStr "Invalid status")] 400)
         else
           let* doc := doc_get gate_pass_id in
           match doc with
           | None => ret (jsonify [("error", JStr "Gate pass not found")] 404)
           | Some _ =>
               let update_data :=
                 dict [("status", status); ("updated_at", JStr (now e 0))] in
               let update_data :=
                 if eq_str status "Rejected"
                 then <["rejection_reason" := reason]> update_data
                 else update_data in
               let* _ := doc_update (encode_error e) gate_pass_id update_data in
               ret (jsonify [("message", JStr ("Gate Pass " +:+
                                match status with JStr st => st | _ => "" end));
                             ("id", JStr gate_pass_id);
                             ("updated_at", JStr (now e 1))] 200)
           end)
        (fun ex => jsonify [("error", JStr (str_exn ex))] 500).

Definition update_gate_pass_view (gate_pass_id : string) : handler :=
  check_authentication (update_gate_pass gate_pass_id).

(** *** Statistics *)

Record bucket := {
  all : nat;
  pending : nat;
  approved : nat;
  rejected : nat
}.

Record stats := {
  total : bucket;
  local : bucket;
  leave : bucket
}.

Definition zero : bucket :=
  {| all := 0; pending := 0; approved := 0; rejected := 0 |}.

Definition stats0 : stats := {| total := zero; local := zero; leave := zero |}.

(** [b["all"] += 1] *)
Definition incr_all (b : bucket) : bucket :=
  {| all := S (all b); pending := pending b;
     approved := approved b; rejected := rejected b |}.

(** [b[status] += 1] for [status] one of the three counted names *)
Definition incr_status (status : string) (b : bucket) : bucket :=
  if String.eqb status "pending" then
    {| all := all b; pending := S (pending b);
       approved := approved b; rejected := rejected b |}
  else if String.eqb status "approved" then
    {| all := all b; pending := pending b;
       approved := S (approved b); rejected := rejected b |}
  else if String.eqb status "rejected" then
    {| all := all b; pending := pending b;
       approved := approved b; rejected := S (rejected b) |}
  else b.

(** [st[pass_type] = f(st[pass_type])] for [pass_type] a key of [st] *)
Definition on_bucket (pass_type : string) (f : bucket → bucket) (st : stats)
  : stats :=
  if String.eqb pass_type "total" then
    {| total := f (total st); local := local st; leave := leave st |}
  else if String.eqb pass_type "local" then
    {| total := total st; local := f (local st); leave := leave st |}
  else if String.eqb pass_type "leave" then
    {| total := total st; local := local st; leave := f (leave st) |}
  else st.

(** The body of the loop [for doc in gate_passes] *)
Definition tally_one (pass_data : doc) (st : stats) : result stats :=
  let pass_type := default (JStr "unknown") (pass_data !! "pass_type") in
  match py_lower (default (JStr "unknown") (pass_data !! "status")) with
  | Raise e => Raise e
  | Ok status =>
      match pass_type with
      | JStr pt =>
          if in_strs pass_type ["local"; "leave"] then
            let st := on_bucket pt incr_all st in
            let st := on_bucket "total" incr_all st in
            if in_strs (JStr status) ["pending"; "approved"; "rejected"] then
              let st := on_bucket pt (incr_status status) st in
              Ok (on_bucket "total" (incr_status status) st)
            else Ok st
          else Ok st
      | _ => Ok st
      end
  end.

Fixpoint tally (docs : list doc) (st : stats) : result stats :=
  match docs with
  | [] => Ok st
  | d :: rest =>
      match tally_one d st with
      | Ok st' => tally rest st'
      | Raise e => Raise e
      end
  end.

Definition bucket_json (b : bucket) : json :=
  JObj (dict [("all", JNum (Z.of_nat (all b)));
              ("pending", JNum (Z.of_nat (pending b)));
              ("approved", JNum (Z.of_nat (approved b)));
              ("rejected", JNum (Z.of_nat (rejected b)))]).

Definition stats_json (st : stats) : json :=
  JObj (dict [("total", bucket_json (total st));
              ("local", bucket_json (local st));
              ("leave", bucket_json (leave st))]).

(** The function [get_statistics] as written; the registered view is
    [get_statistics_view]. *)
Definition get_statistics : handler :=
  fun e req =>
    if is_options req then fun s => (jsonify [("status", JStr "ok")] 200, s)
    else
      try_except
        (let* gate_passes := safe_firestore_query (fun l => l) in
         let* st := lift (tally (map snd gate_passes) stats0) in
         ret (jsonify [("stats", stats_json st);
                       ("last_updated", JStr (now e 0))] 200))
        (fun ex => jsonify [("error", JStr (str_exn ex))] 500).

Definition get_statistics_view : handler :=
  check_authentication get_statistics.

(** ** Sequences of mutating requests *)

Inductive op :=
| Submit (e : env) (req : request)
| Update (gate_pass_id : string) (e : env) (req : request).

Definition step (s : store) (o : op) : store :=
  match o with
  | Submit e req => (submit_gate_pass e req s).2
  | Update id e req => (update_gate_pass_view id e req s).2
  end.

(** The store after the requests [ops], served in order from the empty
    collection *)
Definition run (ops : list op) : store := foldl step ∅ ops.

(** ** Sample data *)

Module Sample.

Definition clock (i : nat) : string :=
  match i with
  | O => "2024-01-01T10:00:00"
  | 1%nat => "2024-01-01T10:00:01"
  | _ => "2024-01-01T10:00:02"
  end.

(** An encoder that refuses integers outside 64 bits and empty field
    names, at any depth *)
Fixpoint encodable (x : json) : bool :=
  match x with
  | JNum n => (- 2 ^ 63 <=? n) && (n <? 2 ^ 63)
  | JArr l => forallb encodable l
  | JObj m =>
      map_fold (fun k v acc => acc && negb (String.eqb k "") && encodable v)
        true m
  | _ => true
  end.

Definition encoder (m : doc) : option exn :=
  if encodable (JObj m) then None
  else Some (ValueError "the value cannot be encoded").

Definition e1 : env :=
  {| uuid4 := "id-1"; now := clock; encode_error := encoder |}.
Definition e2 : env :=
  {| uuid4 := "id-2"; now := clock; encode_error := encoder |}.

(** The submission of the specification's example *)
Definition fields : doc :=
  dict [("pass_type", JStr "local"); ("prn_number", JStr "123");
        ("department", JStr "CS"); ("name", JStr "A"); ("wing", JStr "W1");
        ("room_number", JStr "101"); ("reason", JStr "home");
        ("phone_no", JStr "999"); ("proposed_visit", JStr "2024-01-01");
        ("outing_dates", JStr "2024-01-01")].

Definition post (b : json) : request :=
  {| req_method := "POST"; req_authorization := None; req_json := b |}.

Definition get : request :=
  {| req_method := "GET"; req_authorization := None; req_json := JNull |}.

Definition post_as (header : string) (b : json) : request :=
  {| req_method := "POST"; req_authorization := Some header; req_json := b |}.

Definition staff : string := "Bearer default_secret_token".

Definition approve : json := JObj (dict [("status", JStr "Approved")]).
Definition reject : json :=
  JObj (dict [("status", JStr "Rejected"); ("reason", JStr "late")]).

(** The store after the example submission *)
Definition s1 : store := (submit_gate_pass e1 (post (JObj fields)) ∅).2.

End Sample.

(** ** Vocabulary of the properties *)

(** The field [k] of a request body, when the body is a JSON object that
    has it *)
Definition field (b : json) (k : string) : option json :=
  match b with
  | JObj m => m !! k
  | _ => None
  end.

Definition contains_required (b : json) : bool :=
  forallb (fun k => bool_decide (is_Some (field b k))) required_fields.

Definition pass_type_ok (b : json) : bool :=
  match field b "pass_type" with
  | Some v => in_strs v ["local"; "leave"]
  | None => false
  end.

Definition valid_submission (b : json) : bool :=
  contains_required b && pass_type_ok b.

Definition status_ok (b : json) : bool :=
  match field b "status" with
  | Some v => in_strs v ["Approved"; "Rejected"]
  | None => false
  end.

(** The record that a submission with body [m] stores *)
Definition stamped (e : env) (m : doc) : doc :=
  dict [("timestamp", JStr (now e 0));
        ("status", JStr "Pending");
        ("created_at", JStr (now e 1));
        ("updated_at", JStr (now e 2))] ∪ m.


(** A body that itself sets the four server fields and an extra one *)
Definition forged : doc :=
  <["status" := JStr "Approved"]>
    (<["created_at" := JStr "1999"]>
       (<["rejection_reason" := JStr "x"]> Sample.fields)).

(** The fields that a status update writes *)
Definition update_fields (e : env) (status reason : json) : doc :=
  let update_data :=
    dict [("status", status); ("updated_at", JStr (now e 0))] in
  if eq_str status "Rejected"
  then <["rejection_reason" := reason]> update_data
  else update_data.

(** The status-update property as the specification words it: 400 for a
    status other than [Approved] and [Rejected], 404 for a valid status and
    an unknown identifier, and no write in either case. *)
Definition update_claim (id : string) (e : env) (req : request) (s : store)
  : Prop :=
  let r := update_gate_pass id e req s in
  (status_ok (req_json req) = false → code r.1 = 400%nat ∧ r.2 = s) ∧
  (status_ok (req_json req) = true → s !! id = None →
   code r.1 = 404%nat ∧ r.2 = s).

(** *** The Access Guard *)

Fixpoint no_space (t : string) : bool :=
  match t with
  | EmptyString => true
  | String c t' => negb (Ascii.eqb c " ") && no_space t'
  end.

(** The header [h] is [Bearer ] followed by the token [token], which has no
    space, and then ends or goes on with a space and any text. *)
Definition presents (h token : string) : Prop :=
  no_space token = true ∧
  (h = "Bearer " +:+ token ∨ ∃ rest, h = "Bearer " +:+ token +:+ " " +:+ rest).

Definition authorized (req : request) : Prop :=
  ∃ h, req_authorization req = Some h ∧ presents h SECRET_TOKEN.

(** The guard property as the specification words it: pre-flight requests
    get 200; any other request is served when its header is [Bearer ]
    followed by the secret, and gets 401 and no write otherwise. *)
Definition guard_claim (f : handler) (e : env) (req : request) (s : store)
  : Prop :=
  let r := check_authentication f e req s in
  if is_options req then code r.1 = 200%nat ∧ r.2 = s
  else
    (req_authorization req = Some ("Bearer " +:+ SECRET_TOKEN) →
     r = f e req s) ∧
    (req_authorization req ≠ Some ("Bearer " +:+ SECRET_TOKEN) →
     code r.1 = 401%nat ∧ r.2 = s).

(** *** The life of a record *)

(** The property as the specification words it: a stored record has a
    rejection_reason only when its status is [Rejected]. *)
Definition reason_only_when_rejected (s : store) : Prop :=
  ∀ id (d : doc), s !! id = Some d →
    is_Some (d !! "rejection_reason") → d !! "status" = Some (JStr "Rejected").

(** Some submission among [ops] that got the identifier [id] carried a
    rejection_reason field in its body. *)
Definition reason_supplied (ops : list op) (id : string) : Prop :=
  ∃ e req, Submit e req ∈ ops ∧ uuid4 e = id ∧
           is_Some (field (req_json req) "rejection_reason").

(** Some status update among [ops] asked for [Rejected] on [id]. *)
Definition rejected_once (ops : list op) (id : string) : Prop :=
  ∃ e req, Update id e req ∈ ops ∧
           field (req_json req) "status" = Some (JStr "Rejected").

(** The sample record after its rejection *)
Definition rejected_record : doc :=
  update_fields Sample.e2 (JStr "Rejected") (JStr "late")
    ∪ stamped Sample.e1 Sample.fields.

(** The record at the end of [reject_then_approve] below *)
Definition approved_record : doc :=
  update_fields Sample.e2 (JStr "Approved") (JStr "")
    ∪ (update_fields Sample.e2 (JStr "Rejected") (JStr "late")
         ∪ stamped Sample.e1 Sample.fields).

(** Submit, reject, then approve *)
Definition reject_then_approve : list op :=
  [Submit Sample.e1 (Sample.post (JObj Sample.fields));
   Update "id-1" Sample.e2 (Sample.post_as Sample.staff Sample.reject);
   Update "id-1" Sample.e2 (Sample.post_as Sample.staff Sample.approve)].

(** What holds of every record of a reachable store *)
Definition record_inv (ops : list op) (id : string) (d : doc) : Prop :=
  (is_Some (d !! "rejection_reason") →
   reason_supplied ops id ∨ rejected_once ops id) ∧
  (d !! "status" = Some (JStr "Pending") ∨
   d !! "status" = Some (JStr "Approved") ∨
   d !! "status" = Some (JStr "Rejected")) ∧
  (d !! "status" = Some (JStr "Pending") →
   is_Some (d !! "rejection_reason") → reason_supplied ops id).

(** *** Statistics *)

(** Each status count of a bucket is at most its [all] count. *)
Definition bucket_ok (b : bucket) : Prop :=
  (pending b ≤ all b)%nat ∧ (approved b ≤ all b)%nat ∧
  (rejected b ≤ all b)%nat.

Definition stats_ok (st : stats) : Prop :=
  all (total st) = (all (local st) + all (leave st))%nat ∧
  bucket_ok (total st) ∧ bucket_ok (local st) ∧ bucket_ok (leave st).

(** A store with one record of each kind, one of them without a status *)
Definition three_records : store :=
  <["a" := dict [("pass_type", JStr "local"); ("status", JStr "Pending")]]>
    (<["b" := dict [("pass_type", JStr "leave"); ("status", JStr "REJECTED")]]>
       (<["c" := dict [("pass_type", JStr "leave")]]> ∅)).

#[global] Arguments dict : simpl never.
#[global] Arguments jsonify : simpl never.

(** ** The other views *)

(** [jsonify(data), status] for a dict [data] *)
Definition jsonify_dict (data : doc) (status : nat) : response :=
  {| body := JObj data; code := status |}.

(** The function [get_gate_pass_details] as written; the registered view is
    [get_gate_pass_details_view]. *)
Definition get_gate_pass_details (gate_pass_id : string) : handler :=
  fun e req =>
    if is_options req then fun s => (jsonify [("status", JStr "ok")] 200, s)
    else
      try_except
        (let* doc := doc_get gate_pass_id in
         match doc with
         | None => ret (jsonify [("error", JStr "Gate pass not found")] 404)
         | Some data =>
             let data := <["id" := JStr gate_pass_id]> data in
             ret (jsonify_dict data 200)
         end)
        (fun ex => jsonify [("error", JStr (str_exn ex))] 500).

Definition get_gate_pass_details_view (gate_pass_id : string) : handler :=
  check_authentication (get_gate_pass_details gate_pass_id).

(** [query = db.collection(...)], restricted by [where pass_type == type]
    when [pass_type in ['local', 'leave']]; [pass_type] is
    [request.args.get('type')]. *)
Definition typed_query (pass_type : option string)
  : list (string * doc) → list (string * doc) :=
  fun l =>
    match pass_type with
    | Some pt =>
        if in_strs (JStr pt) ["local"; "leave"]
        then where_eq "pass_type" pt l
        else l
    | None => l
    end.

(** One item of the staff list: a fixed choice of fields, each [""] when
    the record lacks it *)
Definition preview (p : string * doc) : json :=
  let get k := default (JStr "") (p.2 !! k) in
  JObj (dict [("id", JStr p.1);
              ("name", get "name");
              ("prn_number", get "prn_number");
              ("department", get "department");
              ("wing", get "wing");
              ("status", get "status");
              ("pass_type", get "pass_type");
              ("created_at", get "created_at");
              ("updated_at", get "updated_at")]).

(** The function [get_gate_passes_preview] as written, [pass_type] being
    [request.args.get('type')] *)
Definition get_gate_passes_preview (pass_type : option string) : handler :=
  fun e req =>
    try_except
      (let* gate_passes := safe_firestore_query (typed_query pass_type) in
       let result := map preview gate_passes in
       ret (jsonify_list result 200))
      (fun ex => jsonify [("error", JStr (str_exn ex))] 500).

Definition get_gate_passes_preview_view (pass_type : option string) : handler :=
  check_authentication (get_gate_passes_preview pass_type).

(** [lambda x: x.get('timestamp', '')] *)
Definition timestamp_key (x : json) : result json :=
  py_get x "timestamp" (JStr "").

(** The function [get_gate_passes] as written.  Python's
    [list.sort(key=..., reverse=True)] is the parameter [sort_reverse]: it
    raises when it compares two keys that have no order. *)
Definition get_gate_passes
    (sort_reverse : (json → result json) → list json → result (list json))
    (pass_type : option string) : handler :=
  fun e req =>
    try_except
      (let* gate_passes := safe_firestore_query (typed_query pass_type) in
       let result := map with_id gate_passes in
       let* result := lift (sort_reverse timestamp_key result) in
       ret (jsonify_list result 200))
      (fun ex => jsonify [("error", JStr (str_exn ex))] 500).

(** *** A sort for the samples *)




(** ** Vocabulary of the further properties *)

(** The record has the pass type [pt]. *)
Definition has_type (pt : string) (d : doc) : bool :=
  eq_str (default (JStr "unknown") (d !! "pass_type")) pt.

(** The status of the record, in lower case, is [k]. *)
Definition has_status (k : string) (d : doc) : bool :=
  match default (JStr "unknown") (d !! "status") with
  | JStr st => String.eqb (lower_str st) k
  | _ => false
  end.

Definition counted (d : doc) : bool :=
  has_type "local" d || has_type "leave" d.

Definition count (f : doc → bool) (docs : list doc) : nat :=
  length (List.filter f docs).

(** The counts of the records that satisfy [f], by status *)
Definition bucket_count (f : doc → bool) (docs : list doc) : bucket :=
  {| all := count f docs;
     pending := count (fun d => f d && has_status "pending" d) docs;
     approved := count (fun d => f d && has_status "approved" d) docs;
     rejected := count (fun d => f d && has_status "rejected" d) docs |}.

Definition counts (docs : list doc) : stats :=
  {| total := bucket_count counted docs;
     local := bucket_count (has_type "local") docs;
     leave := bucket_count (has_type "leave") docs |}.

Definition bucket_add (a b : bucket) : bucket :=
  {| all := all a + all b; pending := pending a + pending b;
     approved := approved a + approved b;
     rejected := rejected a + rejected b |}%nat.

Definition stats_add (a b : stats) : stats :=
  {| total := bucket_add (total a) (total b);
     local := bucket_add (local a) (local b);
     leave := bucket_add (leave a) (leave b) |}.

(** The sample store with one more record, of no counted pass type, whose
    status is a number *)
Definition one_bad_status : store :=
  <["z" := dict [("pass_type", JStr "other"); ("status", JNum 1)]]>
    three_records.

(** The status of every record is a text, when it has one. *)
Definition statuses_are_texts (s : store) : Prop :=
  ∀ id (d : doc) v, s !! id = Some d → d !! "status" = Some v → ∃ t, v = JStr t.

Definition is_text (o : option json) : Prop := ∃ t, o = Some (JStr t).

(** What submit_gate_pass checks and stamps, and update_gate_pass keeps *)
Definition well_formed (d : doc) : Prop :=
  (∀ k, k ∈ required_fields → is_Some (d !! k)) ∧
  (d !! "pass_type" = Some (JStr "local") ∨
   d !! "pass_type" = Some (JStr "leave")) ∧
  (d !! "status" = Some (JStr "Pending") ∨
   d !! "status" = Some (JStr "Approved") ∨
   d !! "status" = Some (JStr "Rejected")) ∧
  is_text (d !! "timestamp") ∧ is_text (d !! "created_at") ∧
  is_text (d !! "updated_at").

(** The name [k] occurs in a body that is not an object, as [k in data]
    tests it; a number or a boolean has no such test. *)
Definition names (body : json) (k : string) : bool :=
  match body with
  | JArr l => existsb (fun y => eq_str y k) l
  | JStr t => contains k t
  | _ => true
  end.

(** The identifiers that the submissions among [ops] were given *)
Definition submitted_ids (ops : list op) : list string :=
  omap (fun o => match o with
                 | Submit e _ => Some (uuid4 e)
                 | Update _ _ _ => None
                 end) ops.

(** A submission that supplies an id field of its own *)
Definition with_own_id : doc :=
  <["id" := JStr "mine"]> Sample.fields.



(** [k ∉ [k1; ...; kn]] for distinct literal keys *)
Ltac not_among :=
  let H := fresh in
  intros H;
  repeat (apply elem_of_cons in H as [H|H]; [discriminate H|]);
  by apply elem_of_nil in H.

(** ** Python operations: basic facts *)

Lemma truthy_obj_lookup (m : doc) k v :
  m !! k = Some v → truthy (JObj m) = true.
Proof.
  intros Hk. unfold truthy.
  destruct (map_to_list m) as [|p l] eqn:Hl; [|reflexivity].
  apply map_to_list_empty_iff in Hl. subst m.
  rewrite lookup_empty in Hk. discriminate.
Qed.

Lemma eqb_string_true (a b : string) : String.eqb a b = true ↔ a = b.
Proof. apply String.eqb_eq. Qed.

Lemma in_strs_cons x s l : in_strs x (s :: l) = eq_str x s || in_strs x l.
Proof. reflexivity. Qed.

Lemma in_strs_spec x l : in_strs x l = true ↔ ∃ s, x = JStr s ∧ s ∈ l.
Proof.
  unfold in_strs. rewrite existsb_exists. split.
  - intros (s & Hin & Heq). destruct x; try discriminate.
    apply eqb_string_true in Heq. subst. exists s.
    split; [reflexivity | by apply list_elem_of_In].
  - intros (s & -> & Hin). exists s. split; [by apply list_elem_of_In|].
    simpl. by apply eqb_string_true.
Qed.

Lemma first_missing_obj_all (m : doc) fields :
  forallb (fun k => bool_decide (is_Some (m !! k))) fields = true →
  first_missing fields (JObj m) = Ok None.
Proof.
  induction fields as [|k fields IH]; simpl; [reflexivity|].
  intros [Hk Hrest]%andb_true_iff. rewrite Hk. auto.
Qed.

Lemma first_missing_obj_some (m : doc) fields :
  forallb (fun k => bool_decide (is_Some (m !! k))) fields = false →
  ∃ k, k ∈ fields ∧ m !! k = None ∧ first_missing fields (JObj m) = Ok (Some k).
Proof.
  induction fields as [|k fields IH]; simpl; [discriminate|].
  destruct (bool_decide (is_Some (m !! k))) eqn:Hk; simpl.
  - intros Hrest. destruct (IH Hrest) as (k' & Hin & Hnone & Hfm).
    exists k'. split; [by right | by split].
  - intros _. exists k. split; [by left|]. split; [|reflexivity].
    apply bool_decide_eq_false in Hk.
    destruct (m !! k) eqn:E; [exfalso; apply Hk; eauto | reflexivity].
Qed.

Lemma stamped_status e m : stamped e m !! "status" = Some (JStr "Pending").
Proof. unfold stamped. apply lookup_union_Some_l. reflexivity. Qed.

Lemma stamped_other e m k :
  k ∉ ["timestamp"; "status"; "created_at"; "updated_at"] →
  stamped e m !! k = m !! k.
Proof.
  intros Hk. unfold stamped. apply lookup_union_r.
  unfold dict. apply not_elem_of_list_to_map_1.
  simpl. exact Hk.
Qed.

(** ** submit_gate_pass *)

(** A non-pre-flight submission whose body is an object with the ten fields
    and a known pass type, and whose stamped body the store client accepts,
    stores the stamped body and answers 201. *)
Lemma submit_gate_pass_valid e req s (m : doc) :
  is_options req = false →
  req_json req = JObj m →
  valid_submission (JObj m) = true →
  encode_error e (stamped e m) = None →
  submit_gate_pass e req s =
    (jsonify [("message", JStr "Gate Pass Submitted");
              ("id", JStr (uuid4 e));
              ("type", default JNull (m !! "pass_type"))] 201,
     <[uuid4 e := stamped e m]> s).
Proof.
  intros Hopt Hbody [Hall Hpt]%andb_true_iff Henc.
  unfold contains_required, pass_type_ok, field in Hall, Hpt.
  destruct (m !! "pass_type") as [pt|] eqn:Hlk; [|discriminate].
  unfold submit_gate_pass. rewrite Hopt, Hbody.
  unfold try_except, bind, lift, ret.
  rewrite (truthy_obj_lookup _ _ _ Hlk). cbn [negb].
  rewrite (first_missing_obj_all _ _ Hall).
  unfold py_getitem at 1. rewrite Hlk, Hpt. cbn [negb].
  unfold py_update, doc_set, py_getitem. fold (stamped e m). rewrite Henc.
  assert (stamped e m !! "pass_type" = Some pt) as ->.
  { rewrite stamped_other; [done|]. not_among. }
  reflexivity.
Qed.

(** When the store client refuses the stamped body, the same submission is
    answered 500 with the client's error and nothing is stored. *)
Lemma submit_gate_pass_refused e req s (m : doc) ex :
  is_options req = false →
  req_json req = JObj m →
  valid_submission (JObj m) = true →
  encode_error e (stamped e m) = Some ex →
  submit_gate_pass e req s = (jsonify [("error", JStr (str_exn ex))] 500, s).
Proof.
  intros Hopt Hbody [Hall Hpt]%andb_true_iff Henc.
  unfold contains_required, pass_type_ok, field in Hall, Hpt.
  destruct (m !! "pass_type") as [pt|] eqn:Hlk; [|discriminate].
  unfold submit_gate_pass. rewrite Hopt, Hbody.
  unfold try_except, bind, lift, ret.
  rewrite (truthy_obj_lookup _ _ _ Hlk). cbn [negb].
  rewrite (first_missing_obj_all _ _ Hall).
  unfold py_getitem at 1. rewrite Hlk, Hpt. cbn [negb].
  unfold py_update, doc_set. fold (stamped e m). by rewrite Henc.
Qed.

(** Any other object body is answered 400 and nothing is stored. *)
Lemma submit_gate_pass_invalid e req s (m : doc) :
  is_options req = false →
  req_json req = JObj m →
  valid_submission (JObj m) = false →
  ∃ msg, submit_gate_pass e req s = (jsonify [("error", JStr msg)] 400, s).
Proof.
  intros Hopt Hbody Hinv.
  unfold valid_submission, contains_required, pass_type_ok, field in Hinv.
  unfold submit_gate_pass. rewrite Hopt, Hbody.
  unfold try_except, bind, lift, ret.
  destruct (truthy (JObj m)) eqn:Htr; cbn [negb]; [|eauto].
  destruct (forallb _ required_fields) eqn:Hall.
  - rewrite (first_missing_obj_all _ _ Hall).
    assert (is_Some (m !! "pass_type")) as [pt Hlk].
    { simpl in Hall. apply andb_true_iff in Hall as [Hk _].
      by apply bool_decide_eq_true in Hk. }
    rewrite Hlk in Hinv. cbn [andb] in Hinv.
    unfold py_getitem. rewrite Hlk, Hinv. cbn [negb]. eauto.
  - destruct (first_missing_obj_some _ _ Hall) as (k & _ & _ & ->). eauto.
Qed.

Lemma first_missing_names body fields :
  (∀ m, body ≠ JObj m) →
  (∃ t, body = JStr t) ∨ (∃ l, body = JArr l) →
  first_missing fields body =
    Ok (List.find (fun k => negb (names body k)) fields).
Proof.
  intros _ Hshape. induction fields as [|k fields IH]; [done|].
  destruct Hshape as [[t ->]|[l ->]]; simpl in *.
  - destruct (contains k t); simpl; [apply IH | done].
  - destruct (existsb _ l); simpl; [apply IH | done].
Qed.

Lemma find_none_forallb {A} (f : A → bool) l :
  List.find (fun x => negb (f x)) l = None ↔ forallb f l = true.
Proof.
  induction l as [|x l IH]; simpl; [done|].
  destruct (f x); simpl; [done|]. split; discriminate.
Qed.

Lemma submit_gate_pass_not_object e req s :
  is_options req = false →
  (∀ m, req_json req ≠ JObj m) →
  (submit_gate_pass e req s).2 = s ∧
  code (submit_gate_pass e req s).1 =
    if truthy (req_json req) && forallb (names (req_json req)) required_fields
    then 500%nat else 400%nat.
Proof.
  intros Hopt Hnot. unfold submit_gate_pass. rewrite Hopt.
  unfold try_except, bind, lift, ret.
  destruct (req_json req) as [|b|n|t|l|m] eqn:Hbody.
  - done.
  - by destruct b.
  - destruct (truthy (JNum n)); done.
  - destruct (truthy (JStr t)); cbn [negb andb]; [|done].
    rewrite first_missing_names by (eauto || done).
    destruct (List.find _ required_fields) as [k|] eqn:Hfind.
    + destruct (forallb _ required_fields) eqn:Hall; [|done].
      apply find_none_forallb in Hall. congruence.
    + apply find_none_forallb in Hfind. by rewrite Hfind.
  - destruct (truthy (JArr l)); cbn [negb andb]; [|done].
    rewrite first_missing_names by (eauto || done).
    destruct (List.find _ required_fields) as [k|] eqn:Hfind.
    + destruct (forallb _ required_fields) eqn:Hall; [|done].
      apply find_none_forallb in Hall. congruence.
    + apply find_none_forallb in Hfind. by rewrite Hfind.
  - by destruct (Hnot m).
Qed.

(** What a submission that is not a pre-flight request does, by cases on
    its body. *)
Lemma submit_gate_pass_cases e req s :
  is_options req = false →
  (∃ m : doc,
     req_json req = JObj m ∧ valid_submission (JObj m) = true ∧
     encode_error e (stamped e m) = None ∧
     submit_gate_pass e req s =
       (jsonify [("message", JStr "Gate Pass Submitted");
                 ("id", JStr (uuid4 e));
                 ("type", default JNull (m !! "pass_type"))] 201,
        <[uuid4 e := stamped e m]> s)) ∨
  ((submit_gate_pass e req s).2 = s ∧
   code (submit_gate_pass e req s).1 ≠ 201%nat).
Proof.
  intros Hopt.
  destruct (req_json req) as [|b|n|t|l|m] eqn:Hbody.
  6:{ destruct (valid_submission (JObj m)) eqn:Hv.
      - destruct (encode_error e (stamped e m)) as [ex|] eqn:Henc.
        + right.
          by rewrite (submit_gate_pass_refused _ _ _ _ _ Hopt Hbody Hv Henc).
        + left. exists m. repeat split; try done.
          by apply submit_gate_pass_valid.
      - right.
        by destruct (submit_gate_pass_invalid e _ s _ Hopt Hbody Hv) as [? ->]. }
  all: right;
    assert (∀ m, req_json req ≠ JObj m) as Hnot
      by (intros m; rewrite Hbody; discriminate);
    destruct (submit_gate_pass_not_object e req s Hopt Hnot) as [Hs Hc];
    (split; [done|]); rewrite Hc;
    by destruct (truthy (req_json req) && forallb _ required_fields).
Qed.

Lemma sample_s1 :
  Sample.s1 = <["id-1" := stamped Sample.e1 Sample.fields]> ∅.
Proof.
  unfold Sample.s1.
  by rewrite (submit_gate_pass_valid Sample.e1 _ ∅ Sample.fields).
Qed.




(** Whatever the body is, a submission that is not answered 201 leaves the
    store as it was. *)
Lemma submit_gate_pass_no_record e req s :
  code (submit_gate_pass e req s).1 ≠ 201%nat →
  (submit_gate_pass e req s).2 = s.
Proof.
  destruct (is_options req) eqn:Hopt.
  { intros _. unfold submit_gate_pass. by rewrite Hopt. }
  destruct (submit_gate_pass_cases e req s Hopt)
    as [(m & _ & _ & _ & ->)|[Hs _]]; [by intros []|done].
Qed.



(** ** update_gate_pass *)

Lemma status_ok_obj (m : doc) :
  status_ok (JObj m) = in_strs (default JNull (m !! "status"))
                               ["Approved"; "Rejected"].
Proof. unfold status_ok, field. by destruct (m !! "status"). Qed.

Lemma update_gate_pass_bad_status id e req s (m : doc) :
  is_options req = false →
  req_json req = JObj m →
  status_ok (JObj m) = false →
  update_gate_pass id e req s = (jsonify [("error", JStr "Invalid status")] 400, s).
Proof.
  intros Hopt Hbody Hst. rewrite status_ok_obj in Hst.
  unfold update_gate_pass. rewrite Hopt, Hbody.
  unfold try_except, bind, lift, ret, py_get. by rewrite Hst.
Qed.

Lemma update_gate_pass_unknown id e req s (m : doc) :
  is_options req = false →
  req_json req = JObj m →
  status_ok (JObj m) = true →
  s !! id = None →
  update_gate_pass id e req s =
    (jsonify [("error", JStr "Gate pass not found")] 404, s).
Proof.
  intros Hopt Hbody Hst Hid. rewrite status_ok_obj in Hst.
  unfold update_gate_pass. rewrite Hopt, Hbody.
  unfold try_except, bind, lift, ret, py_get, doc_get.
  rewrite Hst. cbn [negb]. cbv beta iota. by rewrite Hid.
Qed.

Lemma update_gate_pass_known id e req s (m d : doc) :
  is_options req = false →
  req_json req = JObj m →
  status_ok (JObj m) = true →
  s !! id = Some d →
  encode_error e (update_fields e (default JNull (m !! "status"))
                    (default (JStr "") (m !! "reason"))) = None →
  ∃ r, code r = 200%nat ∧
       update_gate_pass id e req s =
         (r, <[id := update_fields e (default JNull (m !! "status"))
                       (default (JStr "") (m !! "reason")) ∪ d]> s).
Proof.
  intros Hopt Hbody Hst Hid Henc. rewrite status_ok_obj in Hst.
  unfold update_fields in Henc.
  unfold update_gate_pass. rewrite Hopt, Hbody.
  unfold try_except, bind, lift, ret, py_get, doc_get, doc_update.
  rewrite Hst. cbn [negb]. cbv beta iota. rewrite Hid.
  cbv beta iota. rewrite Henc, Hid.
  eexists. split; [|reflexivity]. reflexivity.
Qed.

(** When the store client refuses the fields of the update, the request is
    answered 500 with the client's error and nothing is written. *)
Lemma update_gate_pass_refused id e req s (m d : doc) ex :
  is_options req = false →
  req_json req = JObj m →
  status_ok (JObj m) = true →
  s !! id = Some d →
  encode_error e (update_fields e (default JNull (m !! "status"))
                    (default (JStr "") (m !! "reason"))) = Some ex →
  update_gate_pass id e req s = (jsonify [("error", JStr (str_exn ex))] 500, s).
Proof.
  intros Hopt Hbody Hst Hid Henc. rewrite status_ok_obj in Hst.
  unfold update_fields in Henc.
  unfold update_gate_pass. rewrite Hopt, Hbody.
  unfold try_except, bind, lift, ret, py_get, doc_get, doc_update.
  rewrite Hst. cbn [negb]. cbv beta iota. rewrite Hid.
  cbv beta iota. by rewrite Henc.
Qed.

(** A status update that is answered 200 was a request with an object body
    whose status is one of the two accepted names, for a stored record; it
    wrote [update_fields] over that record. *)
Lemma update_gate_pass_success id e req s r s' :
  is_options req = false →
  update_gate_pass id e req s = (r, s') →
  code r = 200%nat →
  ∃ (m d : doc) st,
    req_json req = JObj m ∧ m !! "status" = Some (JStr st) ∧
    (st = "Approved" ∨ st = "Rejected") ∧
    s !! id = Some d ∧
    s' = <[id := update_fields e (JStr st)
                   (default (JStr "") (m !! "reason")) ∪ d]> s.
Proof.
  intros Hopt Hrun Hcode.
  destruct (req_json req) as [| | | | |m] eqn:Hbody.
  1-5: unfold update_gate_pass in Hrun; rewrite Hopt, Hbody in Hrun;
       unfold try_except, bind, lift, ret, py_get in Hrun;
       injection Hrun as <- <-; discriminate Hcode.
  destruct (status_ok (JObj m)) eqn:Hst.
  2:{ rewrite (update_gate_pass_bad_status _ _ _ _ _ Hopt Hbody Hst) in Hrun.
      injection Hrun as <- <-. discriminate Hcode. }
  destruct (s !! id) as [d|] eqn:Hid.
  2:{ rewrite (update_gate_pass_unknown _ _ _ _ _ Hopt Hbody Hst Hid) in Hrun.
      injection Hrun as <- <-. discriminate Hcode. }
  destruct (encode_error e (update_fields e (default JNull (m !! "status"))
                              (default (JStr "") (m !! "reason"))))
    as [ex|] eqn:Henc.
  { rewrite (update_gate_pass_refused _ _ _ _ _ _ _ Hopt Hbody Hst Hid Henc)
      in Hrun.
    injection Hrun as <- <-. discriminate Hcode. }
  destruct (update_gate_pass_known _ e _ _ _ _ Hopt Hbody Hst Hid Henc)
    as (r' & _ & Heq).
  rewrite Heq in Hrun. injection Hrun as <- <-.
  rewrite status_ok_obj in Hst. apply in_strs_spec in Hst as (st & Hst & Hin).
  exists m, d, st. destruct (m !! "status") as [v|] eqn:Hlk; [|discriminate].
  simpl in Hst. subst v. repeat split; try done.
  apply elem_of_cons in Hin as [->|Hin]; [by left|].
  apply elem_of_cons in Hin as [->|Hin]; [by right|].
  by apply elem_of_nil in Hin.
Qed.

Lemma update_fields_status e status reason :
  update_fields e status reason !! "status" = Some status.
Proof.
  unfold update_fields. destruct (eq_str status "Rejected"); [|done].
  by rewrite lookup_insert_ne.
Qed.

Lemma update_fields_updated_at e status reason :
  update_fields e status reason !! "updated_at" = Some (JStr (now e 0)).
Proof.
  unfold update_fields. destruct (eq_str status "Rejected"); [|done].
  by rewrite lookup_insert_ne.
Qed.

Lemma update_fields_other e status reason k :
  k ≠ "status" → k ≠ "updated_at" →
  k ≠ "rejection_reason" ∨ eq_str status "Rejected" = false →
  update_fields e status reason !! k = None.
Proof.
  intros H1 H2 H3. unfold update_fields.
  assert (dict [("status", status); ("updated_at", JStr (now e 0))] !! k = None)
    as Hd.
  { unfold dict. apply not_elem_of_list_to_map_1. simpl.
    intros H. apply elem_of_cons in H as [H|H]; [done|].
    apply elem_of_cons in H as [H|H]; [done|]. by apply elem_of_nil in H. }
  destruct (eq_str status "Rejected") eqn:E; [|done].
  destruct H3 as [H3|H3]; [|done]. by rewrite lookup_insert_ne.
Qed.

(** C2, as stated, fails: a JSON array is a body whose status is neither
    [Approved] nor [Rejected], and it is answered 500, not 400. *)
Lemma update_claim_array_body :
  ¬ update_claim "id-1" Sample.e1 (Sample.post_as Sample.staff (JArr [])) ∅.
Proof.
  unfold update_claim. intros [H400 _].
  destruct (H400 eq_refl) as [Hcode _]. vm_compute in Hcode.
  discriminate Hcode.
Qed.

(** C2, amended: for every store, identifier and request whose body is a
    JSON object, update_gate_pass answers 400 when the status of the body is
    not [Approved] or [Rejected], whether or not the identifier exists, and
    404 when the status is valid and the identifier names no record; in both
    cases the store is left as it was. *)
Theorem update_gate_pass_rejects id e req s (m : doc) :
  is_options req = false →
  req_json req = JObj m →
  update_claim id e req s.
Proof.
  intros Hopt Hbody. unfold update_claim. rewrite Hbody. split.
  - intros Hst.
    by rewrite (update_gate_pass_bad_status _ _ _ _ _ Hopt Hbody Hst).
  - intros Hst Hid.
    by rewrite (update_gate_pass_unknown _ _ _ _ _ Hopt Hbody Hst Hid).
Qed.

Lemma update_gate_pass_rejects_witness :
  update_claim "id-1" Sample.e1 (Sample.post_as Sample.staff Sample.approve) ∅.
Proof.
  apply (update_gate_pass_rejects "id-1" Sample.e1 _ ∅
           (dict [("status", JStr "Approved")])); reflexivity.
Defined.

(** C3: on an existing record, a status update that succeeds refreshes
    updated_at; with status [Rejected] it stores a rejection_reason equal to
    the reason of the body, or to the empty string when the body has none;
    with status [Approved] it writes no rejection_reason (the field is as it
    was before). *)
Theorem update_gate_pass_rejection_reason id e req s (d : doc) r s' :
  is_options req = false →
  s !! id = Some d →
  update_gate_pass id e req s = (r, s') →
  code r = 200%nat →
  ∃ d' : doc,
    s' !! id = Some d' ∧
    d' !! "status" = field (req_json req) "status" ∧
    d' !! "updated_at" = Some (JStr (now e 0)) ∧
    (field (req_json req) "status" = Some (JStr "Rejected") →
     d' !! "rejection_reason" =
       Some (default (JStr "") (field (req_json req) "reason"))) ∧
    (field (req_json req) "status" = Some (JStr "Approved") →
     d' !! "rejection_reason" = d !! "rejection_reason").
Proof.
  intros Hopt Hid Hrun Hcode.
  destruct (update_gate_pass_success _ _ _ _ _ _ Hopt Hrun Hcode)
    as (m & d0 & st & Hbody & Hst & Hcases & Hid0 & ->).
  rewrite Hid in Hid0. injection Hid0 as <-.
  rewrite Hbody. cbn [field]. rewrite Hst.
  eexists. split; [apply lookup_insert_eq|].
  split; [apply lookup_union_Some_l, update_fields_status|].
  split; [apply lookup_union_Some_l, update_fields_updated_at|].
  split.
  - intros [= ->]. apply lookup_union_Some_l.
    unfold update_fields. cbn [eq_str String.eqb]. simpl.
    apply lookup_insert_eq.
  - intros [= ->]. apply lookup_union_r.
    apply update_fields_other; [done..|]. by right.
Qed.

Lemma update_gate_pass_rejection_reason_witness :
  ∃ d' : doc,
    (update_gate_pass "id-1" Sample.e2 (Sample.post Sample.reject) Sample.s1).2
      !! "id-1" = Some d' ∧
    d' !! "status" = Some (JStr "Rejected") ∧
    d' !! "updated_at" = Some (JStr (Sample.clock 0)) ∧
    (Some (JStr "Rejected") = Some (JStr "Rejected") →
     d' !! "rejection_reason" = Some (JStr "late")) ∧
    (Some (JStr "Rejected") = Some (JStr "Approved") →
     d' !! "rejection_reason" = stamped Sample.e1 Sample.fields !! "rejection_reason").
Proof.
  apply (update_gate_pass_rejection_reason "id-1" Sample.e2
           (Sample.post Sample.reject) Sample.s1
           (stamped Sample.e1 Sample.fields)
           (update_gate_pass "id-1" Sample.e2 (Sample.post Sample.reject)
              Sample.s1).1);
    reflexivity.
Defined.

(** C9: a status update that succeeds on an existing record changes none of
    its fields other than status, updated_at and, when the new status is
    [Rejected], rejection_reason; the other records are left as they were. *)
Theorem update_gate_pass_frame id e req s (d : doc) r s' :
  is_options req = false →
  s !! id = Some d →
  update_gate_pass id e req s = (r, s') →
  code r = 200%nat →
  ∃ d' : doc,
    s' !! id = Some d' ∧
    (∀ k, k ≠ "status" → k ≠ "updated_at" →
          k ≠ "rejection_reason" ∨
            field (req_json req) "status" ≠ Some (JStr "Rejected") →
          d' !! k = d !! k) ∧
    (∀ id', id' ≠ id → s' !! id' = s !! id').
Proof.
  intros Hopt Hid Hrun Hcode.
  destruct (update_gate_pass_success _ _ _ _ _ _ Hopt Hrun Hcode)
    as (m & d0 & st & Hbody & Hst & Hcases & Hid0 & ->).
  rewrite Hid in Hid0. injection Hid0 as <-.
  eexists. split; [apply lookup_insert_eq|]. split.
  - intros k Hk1 Hk2 Hk3. apply lookup_union_r.
    apply update_fields_other; [done..|].
    destruct Hk3 as [Hk3|Hk3]; [by left|right].
    rewrite Hbody in Hk3. cbn [field] in Hk3. rewrite Hst in Hk3.
    cbn [eq_str]. destruct (String.eqb st "Rejected") eqn:E; [|done].
    apply eqb_string_true in E. by subst st.
  - intros id' Hne. by rewrite lookup_insert_ne.
Qed.

Lemma update_gate_pass_frame_witness :
  ∃ d' : doc,
    (update_gate_pass "id-1" Sample.e2 (Sample.post Sample.approve) Sample.s1).2
      !! "id-1" = Some d' ∧
    (∀ k, k ≠ "status" → k ≠ "updated_at" →
          k ≠ "rejection_reason" ∨
            field Sample.approve "status" ≠ Some (JStr "Rejected") →
          d' !! k = stamped Sample.e1 Sample.fields !! k) ∧
    (∀ id', id' ≠ "id-1" →
       (update_gate_pass "id-1" Sample.e2 (Sample.post Sample.approve)
          Sample.s1).2 !! id' = Sample.s1 !! id').
Proof.
  apply (update_gate_pass_frame "id-1" Sample.e2
           (Sample.post Sample.approve) Sample.s1
           (stamped Sample.e1 Sample.fields)
           (update_gate_pass "id-1" Sample.e2 (Sample.post Sample.approve)
              Sample.s1).1);
    reflexivity.
Defined.

(** ** check_authentication *)

Lemma prefix_app (p s : string) :
  String.prefix p s = true ↔ ∃ r, s = p +:+ r.
Proof.
  revert s. induction p as [|a p IH]; intros s.
  - split; [intros _; by exists s | by destruct s].
  - destruct s as [|b s]; cbn [String.prefix].
    { split; [discriminate | intros [r Hr]; discriminate Hr]. }
    destruct (ascii_dec a b) as [->|Hne].
    + rewrite IH. split; intros [r Hr]; exists r.
      * by rewrite Hr.
      * by injection Hr.
    + split; [done|]. intros [r Hr]. injection Hr as Hab _. done.
Qed.

Lemma split_no_space t : no_space t = true → split " " t = [t].
Proof.
  induction t as [|c t IH]; simpl; [done|].
  intros [Hc Ht]%andb_true_iff. apply negb_true_iff in Hc.
  by rewrite Hc, (IH Ht).
Qed.

Lemma split_no_space_app t rest :
  no_space t = true →
  split " " (t +:+ String " " rest) = t :: split " " rest.
Proof.
  induction t as [|c t IH]; simpl; [done|].
  intros [Hc Ht]%andb_true_iff. apply negb_true_iff in Hc.
  by rewrite Hc, (IH Ht).
Qed.

(** Every string starts with a field without space that ends the string or
    is followed by a space. *)
Lemma first_field (r : string) :
  ∃ t, no_space t = true ∧ (r = t ∨ ∃ rest, r = t +:+ " " +:+ rest).
Proof.
  induction r as [|c r (t & Ht & IH)].
  - exists EmptyString. split; [done | by left].
  - destruct (Ascii.eqb c " ") eqn:Hc.
    + apply Ascii.eqb_eq in Hc as ->. exists EmptyString.
      split; [done|]. right. by exists r.
    + exists (String c t). split; [simpl; by rewrite Hc, Ht|].
      destruct IH as [->|[rest ->]]; [by left|]. right. by exists rest.
Qed.

Lemma bearer_presents h :
  String.prefix "Bearer " h = true → ∃ token, presents h token.
Proof.
  intros [r ->]%prefix_app. destruct (first_field r) as (t & Ht & Hr).
  exists t. split; [done|].
  destruct Hr as [->|[rest ->]]; [by left|]. right. by exists rest.
Qed.

Lemma presents_bearer h token :
  presents h token → String.prefix "Bearer " h = true ∧ h ≠ "".
Proof.
  intros [_ [->|[rest ->]]]; split; try done; apply prefix_app; eauto.
Qed.

(** The token that the guard extracts, [auth_header.split(' ')[1]], is the
    token that the header presents. *)
Lemma presents_split h token :
  presents h token → py_index (split " " h) 1 = Ok token.
Proof.
  intros [Ht [->|[rest ->]]].
  - change ("Bearer " +:+ token) with ("Bearer" +:+ String " " token).
    rewrite split_no_space_app by done. by rewrite split_no_space.
  - change ("Bearer " +:+ token +:+ " " +:+ rest)
      with ("Bearer" +:+ String " " (token +:+ String " " rest)).
    rewrite split_no_space_app by done. by rewrite split_no_space_app.
Qed.

Lemma presents_unique h t1 t2 : presents h t1 → presents h t2 → t1 = t2.
Proof.
  intros H1%presents_split H2%presents_split. congruence.
Qed.

Lemma check_authentication_options f e req s :
  is_options req = true →
  check_authentication f e req s = (jsonify [("status", JStr "ok")] 200, s).
Proof. intros Hopt. unfold check_authentication. by rewrite Hopt. Qed.

Lemma check_authentication_token f e req s h token :
  is_options req = false →
  req_authorization req = Some h →
  presents h token →
  check_authentication f e req s =
    if String.eqb token SECRET_TOKEN then f e req s
    else (jsonify [("error", JStr "Unauthorized");
                   ("received_token", JStr token);
                   ("expected_token", JStr SECRET_TOKEN)] 401, s).
Proof.
  intros Hopt Hh Hp. unfold check_authentication. rewrite Hopt, Hh.
  destruct (presents_bearer _ _ Hp) as [Hpre Hne].
  apply String.eqb_neq in Hne. rewrite Hne, Hpre. cbn [negb andb].
  rewrite (presents_split _ _ Hp). by destruct (String.eqb token SECRET_TOKEN).
Qed.

Lemma check_authentication_no_bearer f e req s :
  is_options req = false →
  (∀ h, req_authorization req = Some h → String.prefix "Bearer " h = false) →
  check_authentication f e req s =
    (jsonify [("error", JStr "Invalid or missing authorization header");
              ("received_header", opt_json (req_authorization req))] 401, s).
Proof.
  intros Hopt Hh. unfold check_authentication. rewrite Hopt.
  destruct (req_authorization req) as [h|]; [|done].
  rewrite (Hh h eq_refl). by rewrite andb_false_r.
Qed.

(** The guard either hands the request to the handler or leaves the store
    as it was. *)
Lemma check_authentication_cases f e req s :
  (is_options req = false ∧ authorized req ∧
   check_authentication f e req s = f e req s) ∨
  (check_authentication f e req s).2 = s.
Proof.
  destruct (is_options req) eqn:Hopt.
  { right. by rewrite check_authentication_options. }
  destruct (req_authorization req) as [h|] eqn:Hh.
  2:{ right. rewrite check_authentication_no_bearer; [done..|].
      intros h. by rewrite Hh. }
  destruct (String.prefix "Bearer " h) eqn:Hpre.
  2:{ right. rewrite check_authentication_no_bearer; [done..|].
      intros h'. rewrite Hh. by intros [= <-]. }
  destruct (bearer_presents _ Hpre) as [token Hp].
  rewrite (check_authentication_token _ _ _ _ _ _ Hopt Hh Hp).
  destruct (String.eqb token SECRET_TOKEN) eqn:Htok; [|by right].
  apply eqb_string_true in Htok. subst token. left.
  split; [done|]. split; [by exists h | done].
Qed.

(** C5, as stated, fails: a header that continues after the secret with a
    space and more text is not [Bearer ] followed by the secret, and yet the
    status update it carries is served: it is answered 200, not 401. *)
Lemma guard_claim_trailing_text :
  ¬ guard_claim (update_gate_pass "id-1") Sample.e2
      (Sample.post_as "Bearer default_secret_token x" Sample.approve)
      Sample.s1.
Proof.
  unfold guard_claim. change (is_options _) with false. cbv iota.
  intros [_ H401]. destruct H401 as [Hcode _]; [discriminate|].
  vm_compute in Hcode. discriminate Hcode.
Qed.

(** C5, amended: on every protected endpoint a pre-flight request is
    answered 200 without any check; any other request is handed to the
    endpoint exactly when its Authorization header is [Bearer ] followed by
    the shared secret, where the header may go on after the secret with a
    space and any text; every other request is answered 401 and the store
    is left as it was. *)
Theorem check_authentication_guard (f : handler) e req s :
  (is_options req = true →
   check_authentication f e req s = (jsonify [("status", JStr "ok")] 200, s)) ∧
  (is_options req = false → authorized req →
   check_authentication f e req s = f e req s) ∧
  (is_options req = false → ¬ authorized req →
   code (check_authentication f e req s).1 = 401%nat ∧
   (check_authentication f e req s).2 = s).
Proof.
  split; [apply check_authentication_options|]. split.
  - intros Hopt (h & Hh & Hp).
    rewrite (check_authentication_token _ _ _ _ _ _ Hopt Hh Hp).
    by rewrite String.eqb_refl.
  - intros Hopt Hno.
    destruct (req_authorization req) as [h|] eqn:Hh.
    2:{ rewrite check_authentication_no_bearer; [done..|].
        intros h. by rewrite Hh. }
    destruct (String.prefix "Bearer " h) eqn:Hpre.
    2:{ rewrite check_authentication_no_bearer; [done..|].
        intros h'. rewrite Hh. by intros [= <-]. }
    destruct (bearer_presents _ Hpre) as [token Hp].
    rewrite (check_authentication_token _ _ _ _ _ _ Hopt Hh Hp).
    destruct (String.eqb token SECRET_TOKEN) eqn:Htok; [|done].
    apply eqb_string_true in Htok. subst token.
    exfalso. apply Hno. by exists h.
Qed.

(** C10: when a request to a protected endpoint, not a pre-flight one, has
    an Authorization header that starts with [Bearer ] and presents a token
    other than the shared secret, the 401 answer carries the shared secret
    itself in its expected_token field, next to the received token. *)
Theorem check_authentication_discloses (f : handler) e req s h token :
  is_options req = false →
  req_authorization req = Some h →
  presents h token →
  token ≠ SECRET_TOKEN →
  let r := (check_authentication f e req s).1 in
  code r = 401%nat ∧
  field (body r) "expected_token" = Some (JStr SECRET_TOKEN) ∧
  field (body r) "received_token" = Some (JStr token).
Proof.
  intros Hopt Hh Hp Hne.
  rewrite (check_authentication_token _ _ _ _ _ _ Hopt Hh Hp).
  apply String.eqb_neq in Hne. rewrite Hne. done.
Qed.

Lemma check_authentication_discloses_witness :
  let r := (check_authentication (update_gate_pass "id-1") Sample.e2
              (Sample.post_as "Bearer wrong" Sample.approve) Sample.s1).1 in
  code r = 401%nat ∧
  field (body r) "expected_token" = Some (JStr SECRET_TOKEN) ∧
  field (body r) "received_token" = Some (JStr "wrong").
Proof.
  apply (check_authentication_discloses (update_gate_pass "id-1") Sample.e2
           (Sample.post_as "Bearer wrong" Sample.approve) Sample.s1
           "Bearer wrong" "wrong").
  - reflexivity.
  - reflexivity.
  - split; [reflexivity | left; reflexivity].
  - discriminate.
Defined.

(** ** Sequences of requests *)

Lemma run_snoc ops o : run (ops ++ [o]) = step (run ops) o.
Proof. unfold run. by rewrite foldl_app. Qed.

(** A submission either leaves the store as it was or stores the stamped
    body under the identifier from [uuid4]. *)
Lemma submit_gate_pass_store e req s :
  (submit_gate_pass e req s).2 = s ∨
  ∃ m : doc, req_json req = JObj m ∧
             (submit_gate_pass e req s).2 = <[uuid4 e := stamped e m]> s.
Proof.
  destruct (is_options req) eqn:Hopt.
  { left. unfold submit_gate_pass. by rewrite Hopt. }
  destruct (submit_gate_pass_cases e req s Hopt)
    as [(m & Hbody & _ & _ & ->)|[Hs _]]; [|by left].
  right. by exists m.
Qed.

(** A status update through the guarded view either leaves the store as it
    was or writes [update_fields] over the record it names. *)
Lemma update_gate_pass_view_store id e req s :
  (update_gate_pass_view id e req s).2 = s ∨
  ∃ (m d : doc) st,
    req_json req = JObj m ∧ m !! "status" = Some (JStr st) ∧
    (st = "Approved" ∨ st = "Rejected") ∧
    s !! id = Some d ∧
    (update_gate_pass_view id e req s).2 =
      <[id := update_fields e (JStr st)
                (default (JStr "") (m !! "reason")) ∪ d]> s.
Proof.
  unfold update_gate_pass_view.
  destruct (check_authentication_cases (update_gate_pass id) e req s)
    as [(Hopt & _ & ->)|Hsame]; [|by left].
  destruct (update_gate_pass id e req s) as [r s'] eqn:Hrun.
  destruct (decide (code r = 200%nat)) as [H200|Hne].
  - right.
    destruct (update_gate_pass_success _ _ _ _ _ _ Hopt Hrun H200)
      as (m & d & st & ? & ? & ? & ? & ?).
    by exists m, d, st.
  - left. cbn [snd].
    destruct (req_json req) as [| | | | |m] eqn:Hbody.
    1-5: unfold update_gate_pass in Hrun; rewrite Hopt, Hbody in Hrun;
         unfold try_except, bind, lift, ret, py_get in Hrun;
         by injection Hrun as <- <-.
    destruct (status_ok (JObj m)) eqn:Hst.
    2:{ rewrite (update_gate_pass_bad_status _ _ _ _ _ Hopt Hbody Hst) in Hrun.
        by injection Hrun as <- <-. }
    destruct (s !! id) as [d|] eqn:Hid.
    2:{ rewrite (update_gate_pass_unknown _ _ _ _ _ Hopt Hbody Hst Hid) in Hrun.
        by injection Hrun as <- <-. }
    destruct (encode_error e (update_fields e (default JNull (m !! "status"))
                                (default (JStr "") (m !! "reason"))))
      as [ex|] eqn:Henc.
    { rewrite (update_gate_pass_refused _ _ _ _ _ _ _ Hopt Hbody Hst Hid Henc)
        in Hrun.
      by injection Hrun as <- <-. }
    destruct (update_gate_pass_known _ e _ _ _ _ Hopt Hbody Hst Hid Henc)
      as (r' & H200 & Heq).
    rewrite Heq in Hrun. injection Hrun as <- <-. done.
Qed.

(** A status update that the guard lets through, with an accepted status,
    for a stored record, and that the store client accepts, writes
    [update_fields] over the record. *)
Lemma update_gate_pass_view_known id e req s (m d : doc) :
  is_options req = false →
  authorized req →
  req_json req = JObj m →
  status_ok (JObj m) = true →
  s !! id = Some d →
  encode_error e (update_fields e (default JNull (m !! "status"))
                    (default (JStr "") (m !! "reason"))) = None →
  (update_gate_pass_view id e req s).2 =
    <[id := update_fields e (default JNull (m !! "status"))
              (default (JStr "") (m !! "reason")) ∪ d]> s.
Proof.
  intros Hopt (h & Hh & Hp) Hbody Hst Hid Henc. unfold update_gate_pass_view.
  rewrite (check_authentication_token _ _ _ _ _ _ Hopt Hh Hp).
  rewrite String.eqb_refl.
  by destruct (update_gate_pass_known id e _ _ _ _ Hopt Hbody Hst Hid Henc)
    as (r & _ & ->).
Qed.

Lemma sample_staff_authorized body :
  authorized (Sample.post_as Sample.staff body).
Proof.
  exists Sample.staff. split; [reflexivity|].
  split; [reflexivity | left; reflexivity].
Qed.

Lemma sample_run : run reject_then_approve !! "id-1" = Some approved_record.
Proof.
  unfold run, reject_then_approve. cbn [foldl step].
  rewrite (submit_gate_pass_valid Sample.e1 _ ∅ Sample.fields) by reflexivity.
  cbn [snd uuid4 Sample.e1].
  rewrite (update_gate_pass_view_known "id-1" Sample.e2
             (Sample.post_as Sample.staff Sample.reject) _
             (dict [("status", JStr "Rejected"); ("reason", JStr "late")])
             (stamped Sample.e1 Sample.fields));
    [|reflexivity|apply sample_staff_authorized|reflexivity|reflexivity
     |apply lookup_insert_eq|reflexivity].
  rewrite (update_gate_pass_view_known "id-1" Sample.e2
             (Sample.post_as Sample.staff Sample.approve) _
             (dict [("status", JStr "Approved")])
             (update_fields Sample.e2 (JStr "Rejected") (JStr "late")
                ∪ stamped Sample.e1 Sample.fields));
    [|reflexivity|apply sample_staff_authorized|reflexivity|reflexivity
     |apply lookup_insert_eq|reflexivity].
  apply lookup_insert_eq.
Qed.

Lemma sample_run_forged :
  run [Submit Sample.e1 (Sample.post (JObj forged))] !! "id-1"
    = Some (stamped Sample.e1 forged).
Proof.
  unfold run. cbn [foldl step].
  rewrite (submit_gate_pass_valid Sample.e1 _ ∅ forged) by reflexivity.
  apply lookup_insert_eq.
Qed.

Lemma reason_supplied_mono ops o id :
  reason_supplied ops id → reason_supplied (ops ++ [o]) id.
Proof.
  intros (e & req & Hin & ?). exists e, req.
  split; [|done]. apply elem_of_app. by left.
Qed.

Lemma rejected_once_mono ops o id :
  rejected_once ops id → rejected_once (ops ++ [o]) id.
Proof.
  intros (e & req & Hin & ?). exists e, req.
  split; [|done]. apply elem_of_app. by left.
Qed.

Lemma record_inv_mono ops o id d :
  record_inv ops id d → record_inv (ops ++ [o]) id d.
Proof.
  intros (H1 & H2 & H3). split; [|split; [done|]].
  - intros Hrr. destruct (H1 Hrr);
      [left; by apply reason_supplied_mono | right; by apply rejected_once_mono].
  - intros Hp Hrr. by apply reason_supplied_mono, H3.
Qed.

Lemma run_record_inv ops id (d : doc) :
  run ops !! id = Some d → record_inv ops id d.
Proof.
  revert id d. induction ops as [|o ops IH] using rev_ind; intros id d.
  { unfold run. simpl. by rewrite lookup_empty. }
  rewrite run_snoc. destruct o as [e req|id0 e req]; cbn [step].
  - destruct (submit_gate_pass_store e req (run ops)) as [->|(m & Hbody & ->)].
    { intros Hd. by apply record_inv_mono, IH. }
    destruct (decide (uuid4 e = id)) as [<-|Hne].
    2:{ rewrite lookup_insert_ne by done. intros Hd.
        by apply record_inv_mono, IH. }
    rewrite lookup_insert_eq. intros [= <-].
    assert (is_Some (stamped e m !! "rejection_reason") →
            reason_supplied (ops ++ [Submit e req]) (uuid4 e)) as Hsup.
    { intros Hrr. exists e, req. split; [apply elem_of_app; right; by left|].
      split; [done|]. rewrite Hbody. cbn [field].
      rewrite stamped_other in Hrr; [done|]. not_among. }
    split; [by left; apply Hsup|]. split; [left; apply stamped_status|].
    intros _. apply Hsup.
  - destruct (update_gate_pass_view_store id0 e req (run ops))
      as [->|(m & d0 & st & Hbody & Hst & Hcases & Hid & ->)].
    { intros Hd. by apply record_inv_mono, IH. }
    destruct (decide (id0 = id)) as [->|Hne].
    2:{ rewrite lookup_insert_ne by done. intros Hd.
        by apply record_inv_mono, IH. }
    rewrite lookup_insert_eq. intros [= <-].
    assert ((update_fields e (JStr st) (default (JStr "") (m !! "reason")) ∪ d0)
              !! "status" = Some (JStr st)) as Hstatus.
    { apply lookup_union_Some_l, update_fields_status. }
    unfold record_inv. rewrite Hstatus. split; [|split].
    + intros Hrr. destruct Hcases as [->| ->].
      * rewrite lookup_union_r in Hrr.
        2:{ apply update_fields_other; [done..|]. by right. }
        destruct (IH _ _ Hid) as (H1 & _ & _).
        destruct (H1 Hrr);
          [left; by apply reason_supplied_mono
          |right; by apply rejected_once_mono].
      * right. exists e, req. split; [apply elem_of_app; right; by left|].
        rewrite Hbody. by cbn [field].
    + destruct Hcases as [->| ->]; [right; by left | right; by right].
    + intros [= ->]. by destruct Hcases.
Qed.

(** C4, as stated, fails: after a submission, a rejection and an approval
    the record has status [Approved] and still carries the rejection_reason
    of the rejection. *)
Lemma reject_then_approve_keeps_reason :
  ¬ reason_only_when_rejected (run reject_then_approve).
Proof.
  intros H. specialize (H "id-1" approved_record sample_run).
  assert (approved_record !! "rejection_reason" = Some (JStr "late")) as Hrr
    by (vm_compute; reflexivity).
  assert (approved_record !! "status" = Some (JStr "Approved")) as Hst
    by (vm_compute; reflexivity).
  rewrite Hrr, Hst in H.
  specialize (H (mk_is_Some _ _ eq_refl)). discriminate H.
Qed.

(** The same happens without any status update: a rejection_reason field in
    the submission body is stored with status [Pending]. *)
Lemma submitted_reason_is_stored :
  ¬ reason_only_when_rejected
      (run [Submit Sample.e1 (Sample.post (JObj forged))]).
Proof.
  intros H. specialize (H "id-1" (stamped Sample.e1 forged) sample_run_forged).
  assert (stamped Sample.e1 forged !! "rejection_reason" = Some (JStr "x"))
    as Hrr by (vm_compute; reflexivity).
  rewrite Hrr, stamped_status in H.
  specialize (H (mk_is_Some _ _ eq_refl)). discriminate H.
Qed.

(** C4, amended: over every record reachable from the empty store through
    any sequence of submit_gate_pass and update_gate_pass requests, the
    record has a rejection_reason field only when its own submission body
    carried that field, or when some status update asked for [Rejected] on
    it, in which case its status is [Rejected] or [Approved]; so a record
    whose status is [Pending] carries no rejection_reason unless its
    submission body did. *)
Theorem run_rejection_reason ops id (d : doc) :
  run ops !! id = Some d →
  is_Some (d !! "rejection_reason") →
  reason_supplied ops id ∨
  (rejected_once ops id ∧
   (d !! "status" = Some (JStr "Rejected") ∨
    d !! "status" = Some (JStr "Approved"))).
Proof.
  intros Hd Hrr. destruct (run_record_inv _ _ _ Hd) as (H1 & H2 & H3).
  destruct H2 as [Hp|[Ha|Hr]].
  - left. by apply H3.
  - destruct (H1 Hrr) as [?|?]; [by left | right; split; [done | by right]].
  - destruct (H1 Hrr) as [?|?]; [by left | right; split; [done | by left]].
Qed.

Lemma run_rejection_reason_witness :
  reason_supplied reject_then_approve "id-1" ∨
  (rejected_once reject_then_approve "id-1" ∧
   (approved_record !! "status" = Some (JStr "Rejected") ∨
    approved_record !! "status" = Some (JStr "Approved"))).
Proof.
  apply (run_rejection_reason reject_then_approve "id-1" approved_record).
  - exact sample_run.
  - exists (JStr "late"). vm_compute. reflexivity.
Defined.

(** ** get_statistics *)

Lemma tally_one_ok (d : doc) st st' :
  stats_ok st → tally_one d st = Ok st' → stats_ok st'.
Proof.
  intros Hok. unfold tally_one.
  destruct (py_lower _) as [status|]; [|discriminate].
  destruct (default (JStr "unknown") (d !! "pass_type")) as [|b|n|pt|l|m];
    try (intros [= <-]; exact Hok).
  destruct (in_strs (JStr pt) ["local"; "leave"]) eqn:Hpt;
    [|intros [= <-]; exact Hok].
  destruct Hok as (Hsum & Ht & Hl & Hv).
  apply in_strs_spec in Hpt as (pt' & [= <-] & Hpt).
  assert (pt = "local" ∨ pt = "leave") as Hcases.
  { apply elem_of_cons in Hpt as [->|Hpt]; [by left|].
    apply elem_of_cons in Hpt as [->|Hpt]; [by right|].
    by apply elem_of_nil in Hpt. }
  destruct (in_strs (JStr status) ["pending"; "approved"; "rejected"]) eqn:Hs.
  - apply in_strs_spec in Hs as (s' & [= <-] & Hs).
    assert (status = "pending" ∨ status = "approved" ∨ status = "rejected")
      as Hst.
    { apply elem_of_cons in Hs as [->|Hs]; [by left|].
      apply elem_of_cons in Hs as [->|Hs]; [right; by left|].
      apply elem_of_cons in Hs as [->|Hs]; [right; by right|].
      by apply elem_of_nil in Hs. }
    intros [= <-]. unfold stats_ok, bucket_ok in *.
    destruct Hcases as [-> | ->]; destruct Hst as [-> | [-> | ->]];
      cbn; lia.
  - intros [= <-]. unfold stats_ok, bucket_ok in *.
    destruct Hcases as [-> | ->]; cbn; lia.
Qed.

Lemma tally_ok docs st st' :
  stats_ok st → tally docs st = Ok st' → stats_ok st'.
Proof.
  revert st. induction docs as [|d docs IH]; intros st Hok; simpl.
  - by intros [= <-].
  - destruct (tally_one d st) as [st1|] eqn:Hone; [|discriminate].
    apply IH. by apply (tally_one_ok d st).
Qed.

Lemma stats0_ok : stats_ok stats0.
Proof. unfold stats_ok, bucket_ok. cbn. lia. Qed.

(** When every stored status is a string, the counts are returned. *)
Lemma tally_returns docs st :
  (∀ (d : doc) v, d ∈ docs → d !! "status" = Some v → ∃ t, v = JStr t) →
  ∃ st', tally docs st = Ok st'.
Proof.
  revert st. induction docs as [|d docs IH]; intros st Hstr; simpl; [eauto|].
  assert (∃ st1, tally_one d st = Ok st1) as [st1 ->].
  { unfold tally_one.
    assert (∃ t, default (JStr "unknown") (d !! "status") = JStr t) as [t ->].
    { destruct (d !! "status") as [v|] eqn:Hv; [|by eexists].
      destruct (Hstr d v) as [t ->]; [by left | done | by eexists]. }
    cbn [py_lower].
    destruct (default (JStr "unknown") (d !! "pass_type")); eauto.
    destruct (in_strs _ ["local"; "leave"]); eauto.
    destruct (in_strs _ ["pending"; "approved"; "rejected"]); eauto. }
  apply IH. intros d' v Hin. apply Hstr. by right.
Qed.

(** C6: whatever records are stored, the statistics that get_statistics
    returns have total.all equal to local.all plus leave.all, and in each of
    the buckets total, local and leave each of the pending, approved and
    rejected counts is at most the all count of that bucket. *)
Theorem get_statistics_counts e req s r s' :
  is_options req = false →
  get_statistics e req s = (r, s') →
  code r = 200%nat →
  ∃ st,
    body r = JObj (dict [("stats", stats_json st);
                         ("last_updated", JStr (now e 0))]) ∧
    all (total st) = (all (local st) + all (leave st))%nat ∧
    bucket_ok (total st) ∧ bucket_ok (local st) ∧ bucket_ok (leave st).
Proof.
  intros Hopt Hrun Hcode. unfold get_statistics in Hrun. rewrite Hopt in Hrun.
  unfold try_except, bind, lift, ret, safe_firestore_query in Hrun.
  destruct (tally (map snd (stream s)) stats0) as [st|ex] eqn:Ht.
  - injection Hrun as <- <-. exists st. split; [reflexivity|].
    by apply (tally_ok _ _ _ stats0_ok Ht).
  - injection Hrun as <- <-. discriminate Hcode.
Qed.

Lemma get_statistics_counts_witness :
  ∃ st,
    body (get_statistics Sample.e1 Sample.get three_records).1 =
      JObj (dict [("stats", stats_json st);
                  ("last_updated", JStr (Sample.clock 0))]) ∧
    all (total st) = (all (local st) + all (leave st))%nat ∧
    bucket_ok (total st) ∧ bucket_ok (local st) ∧ bucket_ok (leave st).
Proof.
  apply (get_statistics_counts Sample.e1 Sample.get three_records
           (get_statistics Sample.e1 Sample.get three_records).1
           three_records);
    reflexivity.
Defined.

(** The counts of the sample store: three records, one of them local, two
    with a counted status. *)
Example get_statistics_three_records :
  tally (map snd (stream three_records)) stats0 =
    Ok {| total := {| all := 3; pending := 1; approved := 0; rejected := 1 |};
          local := {| all := 1; pending := 1; approved := 0; rejected := 0 |};
          leave := {| all := 2; pending := 0; approved := 0; rejected := 1 |} |}.
Proof. vm_compute. reflexivity. Qed.

(** ** get_gate_pass_status *)

Lemma filter_none {A} (f : A → bool) (l : list A) :
  (∀ x, x ∈ l → f x = false) → List.filter f l = [].
Proof.
  induction l as [|x l IH]; intros Hall; simpl; [done|].
  rewrite (Hall x) by (by left). apply IH. intros y Hy. apply Hall. by right.
Qed.

Lemma eq_str_true x t : eq_str x t = true → x = JStr t.
Proof.
  destruct x; try discriminate. simpl. by intros ->%eqb_string_true.
Qed.

Lemma where_eq_no_match (s : store) fld v :
  (∀ id (d : doc), s !! id = Some d → d !! fld ≠ Some (JStr v)) →
  where_eq fld v (stream s) = [].
Proof.
  intros Hno. unfold where_eq, stream. apply filter_none.
  intros [id d] Hin%elem_of_map_to_list. cbn [snd].
  destruct (d !! fld) as [x|] eqn:Hx; [|done].
  destruct (eq_str x v) eqn:Heq; [|done].
  apply eq_str_true in Heq. subst x. by destruct (Hno id d Hin).
Qed.

(** C7: for every PRN that is not empty and not made of white space only,
    and that no stored record has as its prn_number, the look-up by PRN is
    answered 200 with an empty JSON array (and so never 404). *)
Theorem get_gate_pass_status_no_match prn e req (s : store) :
  is_options req = false →
  prn ≠ "" →
  strip prn ≠ "" →
  (∀ id (d : doc), s !! id = Some d → d !! "prn_number" ≠ Some (JStr prn)) →
  get_gate_pass_status prn e req s = ({| body := JArr []; code := 200 |}, s).
Proof.
  intros Hopt Hne Hstrip Hno. unfold get_gate_pass_status. rewrite Hopt.
  apply String.eqb_neq in Hne. apply String.eqb_neq in Hstrip.
  rewrite Hne, Hstrip. cbn [orb].
  unfold try_except, bind, ret, safe_firestore_query.
  by rewrite (where_eq_no_match _ _ _ Hno).
Qed.

Lemma get_gate_pass_status_no_match_witness :
  get_gate_pass_status "124" Sample.e2 Sample.get Sample.s1 =
    ({| body := JArr []; code := 200 |}, Sample.s1).
Proof.
  apply (get_gate_pass_status_no_match "124" Sample.e2 Sample.get
           Sample.s1).
  - reflexivity.
  - discriminate.
  - vm_compute. discriminate.
  - intros id d Hd Hprn. rewrite sample_s1 in Hd.
    destruct (decide (id = "id-1")) as [->|Hne].
    + rewrite lookup_insert_eq in Hd. injection Hd as <-.
      vm_compute in Hprn. discriminate Hprn.
    + rewrite lookup_insert_ne, lookup_empty in Hd by done. discriminate Hd.
Defined.

(** A PRN that a record has is answered with that record and its id. *)
Example get_gate_pass_status_match :
  (get_gate_pass_status "123" Sample.e2 Sample.get Sample.s1).1 =
    jsonify_list [JObj (<["id" := JStr "id-1"]> (stamped Sample.e1 Sample.fields))]
      200.
Proof. vm_compute. reflexivity. Qed.

(** * Further properties *)

(** ** check_authentication: its own answers *)

(** X1: whatever the request, the guard either hands it to the endpoint or
    answers by itself with 200 (pre-flight) or 401, leaving the store as it
    was; taking the token out of the header never fails. *)
Theorem check_authentication_own_answers (f : handler) e req s :
  check_authentication f e req s = f e req s ∨
  ((check_authentication f e req s).2 = s ∧
   (code (check_authentication f e req s).1 = 200%nat ∨
    code (check_authentication f e req s).1 = 401%nat)).
Proof.
  destruct (is_options req) eqn:Hopt.
  { right. rewrite check_authentication_options by done. split; [done | by left]. }
  destruct (req_authorization req) as [h|] eqn:Hh.
  2:{ right. rewrite check_authentication_no_bearer; [split; [done | by right]|done|].
      intros h. by rewrite Hh. }
  destruct (String.prefix "Bearer " h) eqn:Hpre.
  2:{ right. rewrite check_authentication_no_bearer; [split; [done | by right]|done|].
      intros h'. rewrite Hh. by intros [= <-]. }
  destruct (bearer_presents _ Hpre) as [token Hp].
  rewrite (check_authentication_token _ _ _ _ _ _ Hopt Hh Hp).
  destruct (String.eqb token SECRET_TOKEN); [by left|].
  right. split; [done | by right].
Qed.

(** X2: a request, not a pre-flight one, that has no Authorization header
    or one that does not start with [Bearer ] is answered 401 with the
    received header in the body (null when there is none), and the store is
    left as it was. *)
Theorem check_authentication_echoes_header (f : handler) e req s :
  is_options req = false →
  (∀ h, req_authorization req = Some h → String.prefix "Bearer " h = false) →
  let r := check_authentication f e req s in
  code r.1 = 401%nat ∧
  field (body r.1) "received_header" = Some (opt_json (req_authorization req)) ∧
  field (body r.1) "expected_token" = None ∧
  r.2 = s.
Proof.
  intros Hopt Hh. cbv zeta.
  by rewrite (check_authentication_no_bearer _ _ _ _ Hopt Hh).
Qed.

Lemma check_authentication_echoes_header_witness :
  let r := check_authentication (update_gate_pass "id-1") Sample.e2
             (Sample.post_as "bearer default_secret_token" Sample.approve)
             Sample.s1 in
  code r.1 = 401%nat ∧
  field (body r.1) "received_header"
    = Some (JStr "bearer default_secret_token") ∧
  field (body r.1) "expected_token" = None ∧
  r.2 = Sample.s1.
Proof.
  apply (check_authentication_echoes_header (update_gate_pass "id-1") Sample.e2
           (Sample.post_as "bearer default_secret_token" Sample.approve)
           Sample.s1).
  - reflexivity.
  - intros h [= <-]. reflexivity.
Defined.

(** ** submit_gate_pass: the rejected bodies *)

Lemma truthy_obj_nonempty (m : doc) : m ≠ ∅ → truthy (JObj m) = true.
Proof.
  intros Hne. unfold truthy.
  destruct (map_to_list m) eqn:Hl; [|done].
  by apply map_to_list_empty_iff in Hl.
Qed.

Lemma first_missing_obj_first (m : doc) earlier k later :
  (∀ k', k' ∈ earlier → is_Some (m !! k')) →
  m !! k = None →
  first_missing (earlier ++ k :: later) (JObj m) = Ok (Some k).
Proof.
  intros Hearlier Hk. induction earlier as [|k0 earlier IH]; simpl.
  - rewrite bool_decide_eq_false_2; [done|]. rewrite Hk. by intros [? ?].
  - rewrite bool_decide_eq_true_2 by (apply Hearlier; by left).
    apply IH. intros k' Hin. apply Hearlier. by right.
Qed.

(** X3: when the body is a non-empty object that lacks a required field,
    the 400 answer names the first field, in the order of the required
    list, that the body lacks; nothing is stored. *)
Theorem submit_gate_pass_names_first_missing e req s (m : doc) earlier k later :
  is_options req = false →
  req_json req = JObj m →
  m ≠ ∅ →
  required_fields = earlier ++ k :: later →
  (∀ k', k' ∈ earlier → is_Some (m !! k')) →
  m !! k = None →
  submit_gate_pass e req s =
    (jsonify [("error", JStr ("Missing field: " +:+ k))] 400, s).
Proof.
  intros Hopt Hbody Hne Hsplit Hearlier Hk.
  unfold submit_gate_pass. rewrite Hopt, Hbody, Hsplit.
  unfold try_except, bind, lift, ret.
  rewrite (truthy_obj_nonempty _ Hne). cbn [negb].
  by rewrite (first_missing_obj_first _ _ _ _ Hearlier Hk).
Qed.

Lemma submit_gate_pass_names_first_missing_witness :
  submit_gate_pass Sample.e1
    (Sample.post (JObj (delete "wing" (delete "phone_no" Sample.fields)))) ∅ =
    (jsonify [("error", JStr "Missing field: wing")] 400, ∅).
Proof.
  apply (submit_gate_pass_names_first_missing Sample.e1 _ ∅
           (delete "wing" (delete "phone_no" Sample.fields))
           ["pass_type"; "prn_number"; "department"; "name"] "wing"
           ["room_number"; "reason"; "phone_no"; "proposed_visit";
            "outing_dates"]).
  - reflexivity.
  - reflexivity.
  - intros Hempty.
    assert (delete "wing" (delete "phone_no" Sample.fields) !! "name"
            = Some (JStr "A")) as Hname by reflexivity.
    rewrite Hempty in Hname. discriminate Hname.
  - reflexivity.
  - intros k' Hin.
    repeat (apply elem_of_cons in Hin as [->|Hin]; [by eexists|]).
    by apply elem_of_nil in Hin.
  - reflexivity.
Defined.

(** X4: a body that is not a JSON object never creates a record.  It is
    answered 400 when it is null, false, zero, empty, or a text or an array
    in which one of the ten required names does not occur, and 500
    otherwise. *)
Theorem submit_gate_pass_other_bodies e req s :
  is_options req = false →
  (∀ m, req_json req ≠ JObj m) →
  (submit_gate_pass e req s).2 = s ∧
  code (submit_gate_pass e req s).1 =
    if truthy (req_json req) && forallb (names (req_json req)) required_fields
    then 500%nat else 400%nat.
Proof. apply submit_gate_pass_not_object. Qed.

Lemma submit_gate_pass_other_bodies_witness :
  (submit_gate_pass Sample.e1
     (Sample.post (JArr (map JStr required_fields))) Sample.s1).2 = Sample.s1 ∧
  code (submit_gate_pass Sample.e1
          (Sample.post (JArr (map JStr required_fields))) Sample.s1).1 =
    500%nat.
Proof.
  apply (submit_gate_pass_other_bodies Sample.e1
           (Sample.post (JArr (map JStr required_fields))) Sample.s1).
  - reflexivity.
  - discriminate.
Defined.

(** X5: a submission changes the store only when it is answered 201, and
    then it writes the record under the identifier from [uuid4] only: every
    record under another identifier is as it was. *)
Theorem submit_gate_pass_frame e req s :
  (code (submit_gate_pass e req s).1 ≠ 201%nat →
   (submit_gate_pass e req s).2 = s) ∧
  (code (submit_gate_pass e req s).1 = 201%nat →
   is_Some ((submit_gate_pass e req s).2 !! uuid4 e)) ∧
  (∀ id, id ≠ uuid4 e → (submit_gate_pass e req s).2 !! id = s !! id).
Proof.
  split; [apply submit_gate_pass_no_record|]. split.
  - intros H201.
    destruct (is_options req) eqn:Hopt.
    { unfold submit_gate_pass in H201. rewrite Hopt in H201.
      discriminate H201. }
    destruct (submit_gate_pass_cases e req s Hopt)
      as [(m & _ & _ & _ & ->)|[_ Hne]]; [|done].
    cbn [snd]. rewrite lookup_insert_eq. by eexists.
  - intros id Hne.
    destruct (submit_gate_pass_store e req s) as [->|(m & _ & ->)]; [done|].
    by rewrite lookup_insert_ne.
Qed.

(** ** The queries of the store *)

Lemma where_eq_elem fld v (l : list (string * doc)) p :
  p ∈ where_eq fld v l ↔ p ∈ l ∧ p.2 !! fld = Some (JStr v).
Proof.
  unfold where_eq. rewrite list_elem_of_In, filter_In, <-list_elem_of_In.
  split; intros [Hin Hf]; (split; [done|]).
  - destruct (p.2 !! fld) as [x|]; [|done]. by apply eq_str_true in Hf as ->.
  - rewrite Hf. simpl. by apply eqb_string_true.
Qed.

Lemma insert_desc_perm fld p (l : list (string * doc)) :
  insert_desc fld p l ≡ₚ p :: l.
Proof.
  induction l as [|q l IH]; simpl; [done|].
  destruct (p.2 !! fld), (q.2 !! fld);
    try (rewrite IH; apply Permutation_swap).
  destruct (value_compare _ _); try done;
    rewrite IH; apply Permutation_swap.
Qed.

Lemma order_by_desc_elem fld (l : list (string * doc)) p :
  p ∈ order_by_desc fld l ↔ p ∈ l ∧ is_Some (p.2 !! fld).
Proof.
  unfold order_by_desc.
  assert (∀ l', foldr (insert_desc fld) [] l' ≡ₚ l') as Hperm.
  { induction l' as [|q l' IH]; simpl; [done|].
    by rewrite insert_desc_perm, IH. }
  rewrite Hperm, list_elem_of_In, filter_In, <-list_elem_of_In.
  by rewrite bool_decide_eq_true.
Qed.


(** ** get_gate_pass_status: the look-up by PRN *)

Lemma get_gate_pass_status_blank prn e req s :
  is_options req = false →
  String.eqb prn "" || String.eqb (strip prn) "" = true →
  get_gate_pass_status prn e req s =
    (jsonify [("error", JStr "Invalid PRN number")] 400, s).
Proof.
  intros Hopt Hblank. unfold get_gate_pass_status.
  by rewrite Hopt, Hblank.
Qed.

Lemma get_gate_pass_status_found prn e req (s : store) :
  is_options req = false →
  String.eqb prn "" || String.eqb (strip prn) "" = false →
  get_gate_pass_status prn e req s =
    (jsonify_list
       (map with_id
          (order_by_desc "timestamp" (where_eq "prn_number" prn (stream s))))
       200, s).
Proof.
  intros Hopt Hblank. unfold get_gate_pass_status. rewrite Hopt, Hblank.
  unfold try_except, bind, ret, safe_firestore_query.
  by destruct (map with_id _).
Qed.

Lemma status_items_elem prn (s : store) item :
  item ∈ map with_id
           (order_by_desc "timestamp" (where_eq "prn_number" prn (stream s))) ↔
  ∃ id (d : doc),
    s !! id = Some d ∧ d !! "prn_number" = Some (JStr prn) ∧
    is_Some (d !! "timestamp") ∧ item = JObj (<["id" := JStr id]> d).
Proof.
  rewrite list_elem_of_fmap. split.
  - intros ([id d] & -> & Hin). apply order_by_desc_elem in Hin as [Hin Hts].
    apply where_eq_elem in Hin as [Hin Hprn].
    apply elem_of_map_to_list in Hin. by exists id, d.
  - intros (id & d & Hd & Hprn & Hts & ->). exists (id, d).
    split; [done|]. apply order_by_desc_elem. split; [|done].
    apply where_eq_elem. split; [|done]. by apply elem_of_map_to_list.
Qed.

(** X6: the look-up by PRN, when it is not a pre-flight request, is
    answered 400 when the PRN is empty or white space only and 200 in every
    other case, and it leaves the store as it was. *)
Theorem get_gate_pass_status_codes prn e req s :
  is_options req = false →
  (get_gate_pass_status prn e req s).2 = s ∧
  code (get_gate_pass_status prn e req s).1 =
    if String.eqb prn "" || String.eqb (strip prn) "" then 400%nat
    else 200%nat.
Proof.
  intros Hopt.
  destruct (String.eqb prn "" || String.eqb (strip prn) "") eqn:Hblank.
  - by rewrite (get_gate_pass_status_blank _ _ _ _ Hopt Hblank).
  - by rewrite (get_gate_pass_status_found _ _ _ _ Hopt Hblank).
Qed.

Lemma get_gate_pass_status_codes_witness :
  (get_gate_pass_status "   " Sample.e2 Sample.get Sample.s1).2 = Sample.s1 ∧
  code (get_gate_pass_status "   " Sample.e2 Sample.get Sample.s1).1 = 400%nat.
Proof.
  apply (get_gate_pass_status_codes "   " Sample.e2 Sample.get Sample.s1).
  reflexivity.
Defined.



(** X8: what a student submits, the student finds: after a valid
    submission that the store client accepts and whose prn_number is a text
    that is not blank, the look-up by that PRN returns the stored record
    with the new identifier. *)
Theorem submit_then_status e req s (m : doc) prn e' req' :
  is_options req = false →
  req_json req = JObj m →
  valid_submission (JObj m) = true →
  encode_error e (stamped e m) = None →
  m !! "prn_number" = Some (JStr prn) →
  prn ≠ "" →
  strip prn ≠ "" →
  is_options req' = false →
  ∃ l,
    body (get_gate_pass_status prn e' req' (submit_gate_pass e req s).2).1
      = JArr l ∧
    JObj (<["id" := JStr (uuid4 e)]> (stamped e m)) ∈ l.
Proof.
  intros Hopt Hbody Hv Henc Hprn Hne Hstrip Hopt'.
  apply String.eqb_neq in Hne. apply String.eqb_neq in Hstrip.
  rewrite get_gate_pass_status_found by (by rewrite ?Hne, ?Hstrip).
  eexists. split; [reflexivity|]. apply status_items_elem.
  exists (uuid4 e), (stamped e m).
  rewrite (submit_gate_pass_valid _ _ _ _ Hopt Hbody Hv Henc). cbn [snd].
  rewrite lookup_insert_eq. repeat split.
  - rewrite stamped_other; [done|]. not_among.
  - exists (JStr (now e 0)). unfold stamped. by apply lookup_union_Some_l.
Qed.

Lemma submit_then_status_witness :
  ∃ l,
    body (get_gate_pass_status "123" Sample.e2 Sample.get
            (submit_gate_pass Sample.e1 (Sample.post (JObj Sample.fields)) ∅).2).1
      = JArr l ∧
    JObj (<["id" := JStr "id-1"]> (stamped Sample.e1 Sample.fields)) ∈ l.
Proof.
  apply (submit_then_status Sample.e1 (Sample.post (JObj Sample.fields)) ∅
           Sample.fields "123" Sample.e2 Sample.get).
  - reflexivity.
  - reflexivity.
  - reflexivity.
  - reflexivity.
  - reflexivity.
  - discriminate.
  - vm_compute. discriminate.
  - reflexivity.
Defined.

(** ** get_gate_pass_details *)

Lemma get_gate_pass_details_cases id e req (s : store) :
  is_options req = false →
  get_gate_pass_details id e req s =
    match s !! id with
    | Some d => (jsonify_dict (<["id" := JStr id]> d) 200, s)
    | None => (jsonify [("error", JStr "Gate pass not found")] 404, s)
    end.
Proof.
  intros Hopt. unfold get_gate_pass_details. rewrite Hopt.
  unfold try_except, bind, ret, doc_get. by destruct (s !! id).
Qed.

(** X9: the detail view, when it is not a pre-flight request, leaves the
    store as it was; it answers 404 for an identifier that names no record,
    and otherwise 200 with every field of the record and the identifier in
    the field id, also when the record has an id field of its own. *)
Theorem get_gate_pass_details_answers id e req (s : store) :
  is_options req = false →
  let r := get_gate_pass_details id e req s in
  r.2 = s ∧
  (s !! id = None → code r.1 = 404%nat) ∧
  (∀ d : doc, s !! id = Some d →
     code r.1 = 200%nat ∧
     field (body r.1) "id" = Some (JStr id) ∧
     ∀ k, k ≠ "id" → field (body r.1) k = d !! k).
Proof.
  intros Hopt. cbv zeta. rewrite (get_gate_pass_details_cases _ _ _ _ Hopt).
  destruct (s !! id) as [d|] eqn:Hid.
  - split; [done|]. split; [done|]. intros d' [= <-].
    split; [done|]. cbn [fst body jsonify_dict field].
    split; [apply lookup_insert_eq|].
    intros k Hk. by rewrite lookup_insert_ne.
  - split; [done|]. split; [done|]. intros d' [=].
Qed.

Lemma get_gate_pass_details_answers_witness :
  let r := get_gate_pass_details "id-1" Sample.e2 Sample.get Sample.s1 in
  r.2 = Sample.s1 ∧
  (Sample.s1 !! "id-1" = None → code r.1 = 404%nat) ∧
  (∀ d : doc, Sample.s1 !! "id-1" = Some d →
     code r.1 = 200%nat ∧
     field (body r.1) "id" = Some (JStr "id-1") ∧
     ∀ k, k ≠ "id" → field (body r.1) k = d !! k).
Proof.
  apply (get_gate_pass_details_answers "id-1" Sample.e2 Sample.get Sample.s1).
  reflexivity.
Defined.

(** X10: what is submitted can be read back by the staff: after a valid
    submission that the store client accepts, the detail view of the new
    identifier, asked with the shared secret, answers 200 with the stored
    record, that is the body with the server's stamps, and the identifier. *)
Theorem submit_then_details e req s (m : doc) e' req' :
  is_options req = false →
  req_json req = JObj m →
  valid_submission (JObj m) = true →
  encode_error e (stamped e m) = None →
  is_options req' = false →
  authorized req' →
  (get_gate_pass_details_view (uuid4 e) e' req'
     (submit_gate_pass e req s).2).1 =
    jsonify_dict (<["id" := JStr (uuid4 e)]> (stamped e m)) 200.
Proof.
  intros Hopt Hbody Hv Henc Hopt' (h & Hh & Hp).
  unfold get_gate_pass_details_view.
  rewrite (check_authentication_token _ _ _ _ _ _ Hopt' Hh Hp).
  rewrite String.eqb_refl.
  rewrite (get_gate_pass_details_cases _ _ _ _ Hopt').
  rewrite (submit_gate_pass_valid _ _ _ _ Hopt Hbody Hv Henc). cbn [snd].
  by rewrite lookup_insert_eq.
Qed.

Lemma submit_then_details_witness :
  (get_gate_pass_details_view "id-1" Sample.e2
     {| req_method := "GET"; req_authorization := Some Sample.staff;
        req_json := JNull |}
     (submit_gate_pass Sample.e1 (Sample.post (JObj with_own_id)) ∅).2).1 =
    jsonify_dict (<["id" := JStr "id-1"]> (stamped Sample.e1 with_own_id)) 200.
Proof.
  apply (submit_then_details Sample.e1 (Sample.post (JObj with_own_id)) ∅
           with_own_id Sample.e2).
  - reflexivity.
  - reflexivity.
  - reflexivity.
  - reflexivity.
  - reflexivity.
  - exists Sample.staff. split; [reflexivity|].
    split; [reflexivity | left; reflexivity].
Defined.

(** ** update_gate_pass: what it keeps and how updates compose *)

(** X11: a status update through the guarded view never creates and never
    deletes a record: the identifiers of the store are the same after it. *)
Theorem update_gate_pass_view_dom id e req (s : store) :
  dom (update_gate_pass_view id e req s).2 = dom s.
Proof.
  destruct (update_gate_pass_view_store id e req s)
    as [->|(m & d & st & _ & _ & _ & Hid & ->)]; [done|].
  apply dom_insert_lookup_L. by eexists.
Qed.

(** X12: there is no terminal status.  On an existing record, whatever its
    current status, two status updates with accepted statuses, whose fields
    the store client accepts, both succeed, and the record ends with the
    status and the updated_at of the second one. *)
Theorem update_gate_pass_twice id e1 req1 e2 req2 (s : store) (d m1 m2 : doc) :
  is_options req1 = false → req_json req1 = JObj m1 →
  status_ok (JObj m1) = true →
  encode_error e1 (update_fields e1 (default JNull (m1 !! "status"))
                     (default (JStr "") (m1 !! "reason"))) = None →
  is_options req2 = false → req_json req2 = JObj m2 →
  status_ok (JObj m2) = true →
  encode_error e2 (update_fields e2 (default JNull (m2 !! "status"))
                     (default (JStr "") (m2 !! "reason"))) = None →
  s !! id = Some d →
  let r1 := update_gate_pass id e1 req1 s in
  let r2 := update_gate_pass id e2 req2 r1.2 in
  code r1.1 = 200%nat ∧ code r2.1 = 200%nat ∧
  ∃ d2 : doc,
    r2.2 !! id = Some d2 ∧
    d2 !! "status" = m2 !! "status" ∧
    d2 !! "updated_at" = Some (JStr (now e2 0)).
Proof.
  intros Hopt1 Hbody1 Hst1 Henc1 Hopt2 Hbody2 Hst2 Henc2 Hid. cbv zeta.
  destruct (update_gate_pass_known id e1 _ _ _ _ Hopt1 Hbody1 Hst1 Hid Henc1)
    as (r1 & H1 & ->). cbn [fst snd].
  set (d1 := update_fields e1 _ _ ∪ d).
  assert (<[id := d1]> s !! id = Some d1) as Hid1 by apply lookup_insert_eq.
  destruct (update_gate_pass_known id e2 _ _ _ _ Hopt2 Hbody2 Hst2 Hid1 Henc2)
    as (r2 & H2 & ->). cbn [fst snd].
  split; [done|]. split; [done|]. eexists.
  split; [apply lookup_insert_eq|].
  rewrite status_ok_obj in Hst2.
  apply in_strs_spec in Hst2 as (st & Hst & _).
  destruct (m2 !! "status") as [v|] eqn:Hv; [|discriminate Hst].
  simpl in Hst. subst v.
  split; apply lookup_union_Some_l;
    [apply (update_fields_status e2 (JStr st))
    | apply update_fields_updated_at].
Qed.

Lemma update_gate_pass_twice_witness :
  let r1 := update_gate_pass "id-1" Sample.e1 (Sample.post Sample.approve)
              Sample.s1 in
  let r2 := update_gate_pass "id-1" Sample.e2 (Sample.post Sample.reject)
              r1.2 in
  code r1.1 = 200%nat ∧ code r2.1 = 200%nat ∧
  ∃ d2 : doc,
    r2.2 !! "id-1" = Some d2 ∧
    d2 !! "status" = Some (JStr "Rejected") ∧
    d2 !! "updated_at" = Some (JStr (Sample.clock 0)).
Proof.
  apply (update_gate_pass_twice "id-1" Sample.e1 (Sample.post Sample.approve)
           Sample.e2 (Sample.post Sample.reject) Sample.s1
           (stamped Sample.e1 Sample.fields)
           (dict [("status", JStr "Approved")])
           (dict [("status", JStr "Rejected"); ("reason", JStr "late")]));
    reflexivity.
Defined.

(** ** get_statistics: what is counted *)

Lemma stats_add_zero st :
  st = stats_add st {| total := zero; local := zero; leave := zero |}.
Proof.
  destruct st as [[] [] []]. unfold stats_add, bucket_add, zero. cbn.
  by rewrite !Nat.add_0_r.
Qed.

Ltac by_status s :=
  destruct (String.eqb (lower_str s) "pending") eqn:?Hp;
    [apply eqb_string_true in Hp; rewrite Hp
    |destruct (String.eqb (lower_str s) "approved") eqn:?Ha;
       [apply eqb_string_true in Ha; rewrite Ha
       |destruct (String.eqb (lower_str s) "rejected") eqn:?Hr;
          [apply eqb_string_true in Hr; rewrite Hr|]]];
  cbn; intros [= <-];
  unfold stats_add, bucket_add, incr_all, incr_status; cbn;
  f_equal; f_equal; lia.

Lemma tally_one_counts (d : doc) st st' :
  tally_one d st = Ok st' → st' = stats_add st (counts [d]).
Proof.
  unfold tally_one, counts, bucket_count, count, counted, has_type, has_status.
  cbn [List.filter].
  destruct (default (JStr "unknown") (d !! "status")) as [|b|n|s|l|m];
    try discriminate.
  cbn [py_lower].
  destruct (default (JStr "unknown") (d !! "pass_type")) as [|b|n|pt|l|m];
    try (intros [= <-]; apply stats_add_zero).
  cbn [in_strs existsb eq_str].
  destruct st as [[] [] []].
  destruct (String.eqb pt "local") eqn:Hl.
  { apply eqb_string_true in Hl. subst pt. by_status s. }
  destruct (String.eqb pt "leave") eqn:Hv.
  { apply eqb_string_true in Hv. subst pt. by_status s. }
  cbn. intros [= <-]. unfold stats_add, bucket_add. cbn.
  f_equal; f_equal; lia.
Qed.

Lemma counts_cons d docs :
  counts (d :: docs) = stats_add (counts [d]) (counts docs).
Proof.
  unfold counts, bucket_count, count, stats_add, bucket_add. cbn.
  f_equal; f_equal;
    match goal with |- context [if ?c then _ else _] => by destruct c end.
Qed.

Lemma stats_add_assoc a b c :
  stats_add (stats_add a b) c = stats_add a (stats_add b c).
Proof.
  unfold stats_add, bucket_add. cbn. f_equal; f_equal; lia.
Qed.

Lemma tally_counts docs st st' :
  tally docs st = Ok st' → st' = stats_add st (counts docs).
Proof.
  revert st. induction docs as [|d docs IH]; intros st; simpl.
  - intros [= <-]. apply stats_add_zero.
  - destruct (tally_one d st) as [st1|] eqn:Hone; [|discriminate].
    intros Hrest. apply IH in Hrest. apply tally_one_counts in Hone.
    by rewrite Hrest, Hone, stats_add_assoc, <-counts_cons.
Qed.

Lemma stats_add_stats0 st : stats_add stats0 st = st.
Proof. by destruct st as [[] [] []]. Qed.

Lemma tally_texts docs st st' :
  tally docs st = Ok st' →
  ∀ (d : doc) v, d ∈ docs → d !! "status" = Some v → ∃ t, v = JStr t.
Proof.
  revert st. induction docs as [|d0 docs IH]; intros st; simpl.
  { intros _ d v Hin. by apply elem_of_nil in Hin. }
  destruct (tally_one d0 st) as [st1|] eqn:Hone; [|discriminate].
  intros Hrest d v [->|Hin]%elem_of_cons Hv; [|by eapply IH].
  unfold tally_one in Hone. rewrite Hv in Hone. cbn [default from_option] in Hone.
  destruct v; try discriminate Hone. by eexists.
Qed.

Lemma statuses_are_texts_stream (s : store) :
  statuses_are_texts s ↔
  ∀ (d : doc) v, d ∈ map snd (stream s) → d !! "status" = Some v →
                 ∃ t, v = JStr t.
Proof.
  unfold statuses_are_texts, stream. split.
  - intros Hs d v ([id d'] & -> & Hin)%list_elem_of_fmap Hv.
    apply elem_of_map_to_list in Hin. by eapply Hs.
  - intros Hl id d v Hd Hv. apply (Hl d v); [|done].
    apply list_elem_of_fmap. exists (id, d). split; [done|].
    by apply elem_of_map_to_list.
Qed.

Lemma get_statistics_cases e req (s : store) :
  is_options req = false →
  get_statistics e req s =
    match tally (map snd (stream s)) stats0 with
    | Ok st => (jsonify [("stats", stats_json st);
                         ("last_updated", JStr (now e 0))] 200, s)
    | Raise ex => (jsonify [("error", JStr (str_exn ex))] 500, s)
    end.
Proof.
  intros Hopt. unfold get_statistics. rewrite Hopt.
  unfold try_except, bind, lift, ret, safe_firestore_query.
  by destruct (tally _ stats0).
Qed.

(** X13: the statistics that are returned are the exact counts of the stored
    records: a bucket local or leave counts the records whose pass_type is
    that text, total counts the records of both, and in each bucket
    pending, approved and rejected count those of its records whose status,
    put in lower case, is that name.  Records of any other pass type are in
    no count. *)
Theorem get_statistics_exact e req (s : store) :
  is_options req = false →
  code (get_statistics e req s).1 = 200%nat →
  body (get_statistics e req s).1 =
    JObj (dict [("stats", stats_json (counts (map snd (stream s))));
                ("last_updated", JStr (now e 0))]).
Proof.
  intros Hopt. rewrite (get_statistics_cases _ _ _ Hopt).
  destruct (tally _ stats0) as [st|ex] eqn:Ht; [|discriminate].
  intros _. apply tally_counts in Ht. rewrite stats_add_stats0 in Ht.
  by subst st.
Qed.

Lemma get_statistics_exact_witness :
  body (get_statistics Sample.e1 Sample.get three_records).1 =
    JObj (dict [("stats", stats_json (counts (map snd (stream three_records))));
                ("last_updated", JStr (Sample.clock 0))]).
Proof.
  apply (get_statistics_exact Sample.e1 Sample.get three_records);
    reflexivity.
Defined.

(** X14: get_statistics, when it is not a pre-flight request, leaves the
    store as it was and answers 200 or 500; it answers 200 exactly when the
    status of every stored record is a text or is absent.  One record with
    another status, whatever its pass type, makes the whole request fail. *)
Theorem get_statistics_answers e req (s : store) :
  is_options req = false →
  (get_statistics e req s).2 = s ∧
  (code (get_statistics e req s).1 = 200%nat ∨
   code (get_statistics e req s).1 = 500%nat) ∧
  (code (get_statistics e req s).1 = 200%nat ↔ statuses_are_texts s).
Proof.
  intros Hopt. rewrite (get_statistics_cases _ _ _ Hopt).
  destruct (tally _ stats0) as [st|ex] eqn:Ht.
  - split; [done|]. split; [by left|]. split; [intros _|done].
    apply (proj2 (statuses_are_texts_stream s)). by eapply tally_texts.
  - split; [done|]. split; [by right|]. split; [discriminate|].
    intros Hs.
    pose proof (proj1 (statuses_are_texts_stream s) Hs) as Hl.
    destruct (tally_returns _ stats0 Hl) as [st Hst]. congruence.
Qed.

Lemma get_statistics_answers_witness :
  (get_statistics Sample.e1 Sample.get one_bad_status).2 = one_bad_status ∧
  (code (get_statistics Sample.e1 Sample.get one_bad_status).1 = 200%nat ∨
   code (get_statistics Sample.e1 Sample.get one_bad_status).1 = 500%nat) ∧
  (code (get_statistics Sample.e1 Sample.get one_bad_status).1 = 200%nat ↔
   statuses_are_texts one_bad_status).
Proof.
  apply (get_statistics_answers Sample.e1 Sample.get one_bad_status).
  reflexivity.
Defined.

Lemma count_cons (f : doc → bool) d docs :
  count f (d :: docs) = (Nat.b2n (f d) + count f docs)%nat.
Proof. unfold count. cbn [List.filter]. by destruct (f d). Qed.

(** A record has at most one of the three counted statuses. *)
Lemma has_status_exclusive d :
  (Nat.b2n (has_status "pending" d) + Nat.b2n (has_status "approved" d)
   + Nat.b2n (has_status "rejected" d) ≤ 1)%nat.
Proof.
  unfold has_status.
  destruct (default (JStr "unknown") (d !! "status")) as [|b|n|t|l|m];
    cbn; try lia.
  destruct (String.eqb (lower_str t) "pending") eqn:Hp.
  { apply eqb_string_true in Hp. rewrite Hp. cbn. lia. }
  destruct (String.eqb (lower_str t) "approved") eqn:Ha.
  { apply eqb_string_true in Ha. rewrite Ha. cbn. lia. }
  destruct (String.eqb (lower_str t) "rejected"); cbn; lia.
Qed.

(** A record has at most one of the two counted pass types. *)
Lemma has_type_exclusive d :
  has_type "local" d && has_type "leave" d = false.
Proof.
  unfold has_type.
  destruct (default (JStr "unknown") (d !! "pass_type")) as [|b|n|t|l|m];
    cbn [eq_str andb]; try done.
  destruct (String.eqb t "local") eqn:Hl; [|done].
  apply eqb_string_true in Hl. by subst t.
Qed.

Lemma count_statuses_le (f : doc → bool) docs :
  (count (fun d => f d && has_status "pending" d) docs
   + count (fun d => f d && has_status "approved" d) docs
   + count (fun d => f d && has_status "rejected" d) docs
   ≤ count f docs)%nat.
Proof.
  induction docs as [|d docs IH]; [done|]. rewrite !count_cons.
  pose proof (has_status_exclusive d) as Hex.
  destruct (f d), (has_status "pending" d), (has_status "approved" d),
    (has_status "rejected" d); cbn in *; lia.
Qed.

Lemma count_types_split (h : doc → bool) docs :
  count (fun d => counted d && h d) docs =
    (count (fun d => has_type "local" d && h d) docs
     + count (fun d => has_type "leave" d && h d) docs)%nat.
Proof.
  induction docs as [|d docs IH]; [done|]. rewrite !count_cons, IH.
  pose proof (has_type_exclusive d) as Hex. unfold counted.
  destruct (has_type "local" d), (has_type "leave" d), (h d);
    cbn in *; try discriminate Hex; lia.
Qed.

(** X15: in the returned statistics the three status counts of a bucket
    together are at most its all count (a record is in at most one of them),
    and each status count of total is the sum of those of local and
    leave. *)
Theorem get_statistics_sums e req (s : store) :
  is_options req = false →
  code (get_statistics e req s).1 = 200%nat →
  ∃ st,
    body (get_statistics e req s).1 =
      JObj (dict [("stats", stats_json st);
                  ("last_updated", JStr (now e 0))]) ∧
    (∀ b, b ∈ [total st; local st; leave st] →
          (pending b + approved b + rejected b ≤ all b)%nat) ∧
    pending (total st) = (pending (local st) + pending (leave st))%nat ∧
    approved (total st) = (approved (local st) + approved (leave st))%nat ∧
    rejected (total st) = (rejected (local st) + rejected (leave st))%nat.
Proof.
  intros Hopt. rewrite (get_statistics_cases _ _ _ Hopt).
  destruct (tally _ stats0) as [st|ex] eqn:Ht; [|discriminate].
  intros _. apply tally_counts in Ht. rewrite stats_add_stats0 in Ht.
  subst st. eexists. split; [reflexivity|]. split; [|split; [|split]].
  - intros b Hb.
    repeat (apply elem_of_cons in Hb as [->|Hb];
            [apply count_statuses_le|]).
    by apply elem_of_nil in Hb.
  - apply count_types_split.
  - apply count_types_split.
  - apply count_types_split.
Qed.

Lemma get_statistics_sums_witness :
  ∃ st,
    body (get_statistics Sample.e1 Sample.get three_records).1 =
      JObj (dict [("stats", stats_json st);
                  ("last_updated", JStr (Sample.clock 0))]) ∧
    (∀ b, b ∈ [total st; local st; leave st] →
          (pending b + approved b + rejected b ≤ all b)%nat) ∧
    pending (total st) = (pending (local st) + pending (leave st))%nat ∧
    approved (total st) = (approved (local st) + approved (leave st))%nat ∧
    rejected (total st) = (rejected (local st) + rejected (leave st))%nat.
Proof.
  apply (get_statistics_sums Sample.e1 Sample.get three_records);
    reflexivity.
Defined.

(** ** Stores built through the interface *)

Lemma submit_gate_pass_store_valid e req s :
  (submit_gate_pass e req s).2 = s ∨
  ∃ m : doc, req_json req = JObj m ∧ valid_submission (JObj m) = true ∧
             (submit_gate_pass e req s).2 = <[uuid4 e := stamped e m]> s.
Proof.
  destruct (is_options req) eqn:Hopt.
  { left. unfold submit_gate_pass. by rewrite Hopt. }
  destruct (submit_gate_pass_cases e req s Hopt)
    as [(m & Hbody & Hv & _ & ->)|[Hs _]]; [|by left].
  right. by exists m.
Qed.

Lemma required_not_stamped k :
  k ∈ required_fields →
  (k ∉ ["timestamp"; "status"; "created_at"; "updated_at"]) ∧
  k ≠ "status" ∧ k ≠ "updated_at" ∧ k ≠ "rejection_reason".
Proof.
  intros Hin.
  repeat (apply elem_of_cons in Hin as [->|Hin];
          [split; [not_among | done]|]).
  by apply elem_of_nil in Hin.
Qed.

Lemma stamped_well_formed e (m : doc) :
  valid_submission (JObj m) = true → well_formed (stamped e m).
Proof.
  intros [Hall Hpt]%andb_true_iff.
  unfold contains_required, pass_type_ok, field in Hall, Hpt.
  split; [|split; [|split; [|split; [|split]]]].
  - intros k Hk. destruct (required_not_stamped k Hk) as [Hne _].
    rewrite stamped_other by done.
    rewrite forallb_forall in Hall. apply list_elem_of_In in Hk.
    apply (bool_decide_eq_true_1 _ (Hall k Hk)).
  - rewrite stamped_other by not_among.
    destruct (m !! "pass_type") as [v|]; [|discriminate].
    apply in_strs_spec in Hpt as (pt & -> & Hin).
    apply elem_of_cons in Hin as [->|Hin]; [by left|].
    apply elem_of_cons in Hin as [->|Hin]; [by right|].
    by apply elem_of_nil in Hin.
  - left. apply stamped_status.
  - eexists. unfold stamped. by apply lookup_union_Some_l.
  - eexists. unfold stamped. by apply lookup_union_Some_l.
  - eexists. unfold stamped. by apply lookup_union_Some_l.
Qed.

Lemma update_well_formed e st reason (d : doc) :
  st = "Approved" ∨ st = "Rejected" →
  well_formed d →
  well_formed (update_fields e (JStr st) reason ∪ d).
Proof.
  intros Hst (Hreq & Hpt & _ & Hts & Hcr & _).
  assert (∀ k, k ≠ "status" → k ≠ "updated_at" → k ≠ "rejection_reason" →
               (update_fields e (JStr st) reason ∪ d) !! k = d !! k) as Hsame.
  { intros k H1 H2 H3. apply lookup_union_r.
    apply update_fields_other; [done..|by left]. }
  split; [|split; [|split; [|split; [|split]]]].
  - intros k Hk. destruct (required_not_stamped k Hk) as (_ & ? & ? & ?).
    rewrite Hsame by done. by apply Hreq.
  - by rewrite Hsame.
  - rewrite (lookup_union_Some_l _ _ _ _ (update_fields_status e (JStr st) reason)).
    destruct Hst as [-> | ->]; [right; by left | right; by right].
  - by rewrite Hsame.
  - by rewrite Hsame.
  - eexists. apply lookup_union_Some_l, update_fields_updated_at.
Qed.

Lemma run_well_formed_aux ops id (d : doc) :
  run ops !! id = Some d → well_formed d.
Proof.
  revert id d. induction ops as [|o ops IH] using rev_ind; intros id d.
  { unfold run. simpl. by rewrite lookup_empty. }
  rewrite run_snoc. destruct o as [e req|id0 e req]; cbn [step].
  - destruct (submit_gate_pass_store_valid e req (run ops))
      as [->|(m & _ & Hv & ->)]; [apply IH|].
    destruct (decide (uuid4 e = id)) as [<-|Hne].
    + rewrite lookup_insert_eq. intros [= <-]. by apply stamped_well_formed.
    + rewrite lookup_insert_ne by done. apply IH.
  - destruct (update_gate_pass_view_store id0 e req (run ops))
      as [->|(m & d0 & st & _ & _ & Hcases & Hid & ->)]; [apply IH|].
    destruct (decide (id0 = id)) as [->|Hne].
    + rewrite lookup_insert_eq. intros [= <-].
      apply update_well_formed; [done|]. by eapply IH.
    + rewrite lookup_insert_ne by done. apply IH.
Qed.

(** X16: every record of a store built from the empty one by submissions
    and status updates is well formed: it has the ten required fields, its
    pass_type is [local] or [leave], its status is [Pending], [Approved] or
    [Rejected], and its timestamp, created_at and updated_at are texts. *)
Theorem run_well_formed ops id (d : doc) :
  run ops !! id = Some d → well_formed d.
Proof. apply run_well_formed_aux. Qed.

Lemma run_well_formed_witness : well_formed approved_record.
Proof.
  apply (run_well_formed reject_then_approve "id-1" approved_record).
  exact sample_run.
Defined.

Lemma well_formed_counted (d : doc) :
  well_formed d →
  counted d = true ∧
  (Nat.b2n (has_status "pending" d) + Nat.b2n (has_status "approved" d)
   + Nat.b2n (has_status "rejected" d) = 1)%nat.
Proof.
  intros (_ & Hpt & Hst & _). split.
  - unfold counted, has_type. by destruct Hpt as [-> | ->].
  - unfold has_status. by destruct Hst as [-> | [-> | ->]].
Qed.

Lemma count_all_counted docs :
  Forall well_formed docs → count counted docs = length docs.
Proof.
  induction 1 as [|d docs Hd _ IH]; [done|]. rewrite count_cons, IH.
  by destruct (well_formed_counted d Hd) as [-> _].
Qed.

Lemma count_statuses_sum (f : doc → bool) docs :
  Forall well_formed docs →
  (count (fun d => f d && has_status "pending" d) docs
   + count (fun d => f d && has_status "approved" d) docs
   + count (fun d => f d && has_status "rejected" d) docs
   = count f docs)%nat.
Proof.
  induction 1 as [|d docs Hd _ IH]; [done|]. rewrite !count_cons.
  destruct (well_formed_counted d Hd) as [_ Hone].
  destruct (f d), (has_status "pending" d), (has_status "approved" d),
    (has_status "rejected" d); cbn in *; lia.
Qed.

(** X17: on a store built from the empty one by submissions and status
    updates, get_statistics always answers 200; total.all is the number of
    stored records, and in each bucket the pending, approved and rejected
    counts add up to the all count. *)
Theorem run_statistics e req ops :
  is_options req = false →
  ∃ st,
    get_statistics e req (run ops) =
      (jsonify [("stats", stats_json st);
                ("last_updated", JStr (now e 0))] 200, run ops) ∧
    all (total st) = size (run ops) ∧
    ∀ b, b ∈ [total st; local st; leave st] →
         (pending b + approved b + rejected b = all b)%nat.
Proof.
  intros Hopt.
  assert (Forall well_formed (map snd (stream (run ops)))) as Hwf.
  { apply Forall_forall. intros d ([id d'] & -> & Hin)%list_elem_of_fmap.
    apply elem_of_map_to_list in Hin. by eapply run_well_formed_aux. }
  rewrite (get_statistics_cases _ _ _ Hopt).
  destruct (tally_returns (map snd (stream (run ops))) stats0) as [st Ht].
  { intros d v Hd Hv. rewrite Forall_forall in Hwf.
    destruct (Hwf d Hd) as (_ & _ & Hst & _). rewrite Hv in Hst.
    destruct Hst as [[= ->]|[[= ->]|[= ->]]]; by eexists. }
  rewrite Ht. exists st. split; [done|].
  apply tally_counts in Ht. rewrite stats_add_stats0 in Ht. subst st.
  split.
  - cbn [total counts all bucket_count]. rewrite count_all_counted by done.
    unfold stream. by rewrite length_map, length_map_to_list.
  - intros b Hb.
    repeat (apply elem_of_cons in Hb as [->|Hb];
            [by apply count_statuses_sum|]).
    by apply elem_of_nil in Hb.
Qed.

Lemma run_statistics_witness :
  ∃ st,
    get_statistics Sample.e1 Sample.get (run reject_then_approve) =
      (jsonify [("stats", stats_json st);
                ("last_updated", JStr (Sample.clock 0))] 200,
       run reject_then_approve) ∧
    all (total st) = size (run reject_then_approve) ∧
    ∀ b, b ∈ [total st; local st; leave st] →
         (pending b + approved b + rejected b = all b)%nat.
Proof.
  apply (run_statistics Sample.e1 Sample.get reject_then_approve).
  reflexivity.
Defined.

(** X18: in a store built from the empty one by submissions and status
    updates, a record whose status is [Rejected] always has a
    rejection_reason field. *)
Theorem run_rejected_has_reason ops id (d : doc) :
  run ops !! id = Some d →
  d !! "status" = Some (JStr "Rejected") →
  is_Some (d !! "rejection_reason").
Proof.
  revert id d. induction ops as [|o ops IH] using rev_ind; intros id d.
  { unfold run. simpl. by rewrite lookup_empty. }
  rewrite run_snoc. destruct o as [e req|id0 e req]; cbn [step].
  - destruct (submit_gate_pass_store_valid e req (run ops))
      as [->|(m & _ & _ & ->)]; [apply IH|].
    destruct (decide (uuid4 e = id)) as [<-|Hne].
    + rewrite lookup_insert_eq. intros [= <-]. by rewrite stamped_status.
    + rewrite lookup_insert_ne by done. apply IH.
  - destruct (update_gate_pass_view_store id0 e req (run ops))
      as [->|(m & d0 & st & _ & _ & Hcases & Hid & ->)]; [apply IH|].
    destruct (decide (id0 = id)) as [->|Hne].
    2:{ rewrite lookup_insert_ne by done. apply IH. }
    rewrite lookup_insert_eq. intros [= <-].
    rewrite (lookup_union_Some_l _ _ _ _
               (update_fields_status e (JStr st) _)).
    intros [= ->]. eexists. apply lookup_union_Some_l.
    unfold update_fields. cbn [eq_str]. rewrite String.eqb_refl.
    apply lookup_insert_eq.
Qed.

Lemma run_rejected_has_reason_witness :
  is_Some (rejected_record !! "rejection_reason").
Proof.
  apply (run_rejected_has_reason
           [Submit Sample.e1 (Sample.post (JObj Sample.fields));
            Update "id-1" Sample.e2 (Sample.post_as Sample.staff Sample.reject)]
           "id-1").
  - unfold run. cbn [foldl step].
    rewrite (submit_gate_pass_valid Sample.e1 _ ∅ Sample.fields)
      by reflexivity.
    cbn [snd uuid4 Sample.e1].
    rewrite (update_gate_pass_view_known "id-1" Sample.e2
               (Sample.post_as Sample.staff Sample.reject) _
               (dict [("status", JStr "Rejected"); ("reason", JStr "late")])
               (stamped Sample.e1 Sample.fields));
      [|reflexivity|apply sample_staff_authorized|reflexivity|reflexivity
       |apply lookup_insert_eq|reflexivity].
    apply lookup_insert_eq.
  - vm_compute. reflexivity.
Defined.

Lemma step_keeps (s : store) o id :
  is_Some (s !! id) → is_Some (step s o !! id).
Proof.
  intros Hid. destruct o as [e req|id0 e req]; cbn [step].
  - destruct (submit_gate_pass_store_valid e req s) as [->|(m & _ & _ & ->)];
      [done|].
    destruct (decide (uuid4 e = id)) as [<-|Hne].
    + rewrite lookup_insert_eq. by eexists.
    + by rewrite lookup_insert_ne.
  - destruct (update_gate_pass_view_store id0 e req s)
      as [->|(m & d0 & st & _ & _ & _ & _ & ->)]; [done|].
    destruct (decide (id0 = id)) as [->|Hne].
    + rewrite lookup_insert_eq. by eexists.
    + by rewrite lookup_insert_ne.
Qed.

Lemma foldl_step_keeps ops (s : store) id :
  is_Some (s !! id) → is_Some (foldl step s ops !! id).
Proof.
  revert s. induction ops as [|o ops IH]; intros s Hid; [done|].
  simpl. by apply IH, step_keeps.
Qed.

Lemma run_submitted ops id :
  is_Some (run ops !! id) → id ∈ submitted_ids ops.
Proof.
  unfold submitted_ids.
  induction ops as [|o ops IH] using rev_ind.
  { unfold run. simpl. rewrite lookup_empty. by intros [? ?]. }
  rewrite run_snoc, omap_app, elem_of_app.
  destruct o as [e req|id0 e req]; cbn [step].
  - destruct (submit_gate_pass_store_valid e req (run ops))
      as [->|(m & _ & _ & ->)]; [left; by apply IH|].
    destruct (decide (uuid4 e = id)) as [<-|Hne].
    + intros _. right. simpl. by left.
    + rewrite lookup_insert_ne by done. left. by apply IH.
  - destruct (update_gate_pass_view_store id0 e req (run ops))
      as [->|(m & d0 & st & _ & _ & _ & Hid & ->)]; [left; by apply IH|].
    destruct (decide (id0 = id)) as [->|Hne].
    + intros _. left. apply IH. by eexists.
    + rewrite lookup_insert_ne by done. left. by apply IH.
Qed.

(** X19: records are created by submissions only and are never deleted:
    the identifier of a record in a store built from the empty one is the
    identifier that some submission of the sequence was given, and the record
    is still there after any further submissions and status updates. *)
Theorem run_ids ops id (d : doc) :
  run ops !! id = Some d →
  id ∈ submitted_ids ops ∧
  ∀ more, is_Some (run (ops ++ more) !! id).
Proof.
  intros Hd. split.
  - apply run_submitted. by eexists.
  - intros more. unfold run. rewrite foldl_app.
    apply foldl_step_keeps. by eexists.
Qed.

Lemma run_ids_witness :
  "id-1" ∈ submitted_ids reject_then_approve ∧
  ∀ more, is_Some (run (reject_then_approve ++ more) !! "id-1").
Proof.
  apply (run_ids reject_then_approve "id-1" approved_record).
  exact sample_run.
Defined.

(** ** The staff lists *)



(** The preview of the sample record has no phone number and an empty
    text for a field that the record lacks. *)
Example preview_sample :
  field (preview ("a", dict [("name", JStr "A"); ("phone_no", JStr "999")]))
    "phone_no" = None ∧
  field (preview ("a", dict [("name", JStr "A"); ("phone_no", JStr "999")]))
    "wing" = Some (JStr "").
Proof. split; reflexivity. Qed.




Section GatePasses.

(** Python's [list.sort(key=..., reverse=True)]: when it returns, the list
    has the same items as before. *)
Variable sort_reverse : (json → result json) → list json → result (list json).
Hypothesis sort_reverse_perm :
  ∀ key l l', sort_reverse key l = Ok l' → l' ≡ₚ l.


End GatePasses.


(** ** The views that only read *)

Lemma get_gate_pass_details_store id e req (s : store) :
  (get_gate_pass_details id e req s).2 = s.
Proof.
  destruct (is_options req) eqn:Hopt.
  - unfold get_gate_pass_details. by rewrite Hopt.
  - rewrite (get_gate_pass_details_cases _ _ _ _ Hopt). by destruct (s !! id).
Qed.

Lemma get_statistics_store e req (s : store) :
  (get_statistics e req s).2 = s.
Proof.
  destruct (is_options req) eqn:Hopt.
  - unfold get_statistics. by rewrite Hopt.
  - rewrite (get_statistics_cases _ _ _ Hopt). by destruct (tally _ _).
Qed.

Lemma get_gate_pass_status_store prn e req (s : store) :
  (get_gate_pass_status prn e req s).2 = s.
Proof.
  destruct (is_options req) eqn:Hopt.
  - unfold get_gate_pass_status. by rewrite Hopt.
  - destruct (String.eqb prn "" || String.eqb (strip prn) "") eqn:Hblank.
    + by rewrite (get_gate_pass_status_blank _ _ _ _ Hopt Hblank).
    + by rewrite (get_gate_pass_status_found _ _ _ _ Hopt Hblank).
Qed.

Lemma check_authentication_store (f : handler) e req (s : store) :
  (∀ s, (f e req s).2 = s) → (check_authentication f e req s).2 = s.
Proof.
  intros Hf.
  destruct (check_authentication_cases f e req s) as [(_ & _ & ->)|?]; done.
Qed.

(** X22: looking never writes.  The look-up by PRN and, behind the guard,
    the detail view, the staff list, the statistics and the full list leave
    the store as it was, for every request, whatever they answer. *)
Theorem reading_keeps_the_store e req (s : store) :
  (∀ prn, (get_gate_pass_status prn e req s).2 = s) ∧
  (∀ id, (get_gate_pass_details_view id e req s).2 = s) ∧
  (∀ pass_type, (get_gate_passes_preview_view pass_type e req s).2 = s) ∧
  (get_statistics_view e req s).2 = s ∧
  (∀ sort_reverse pass_type,
     (check_authentication (get_gate_passes sort_reverse pass_type)
        e req s).2 = s).
Proof.
  split; [intros; apply get_gate_pass_status_store|].
  split; [intros; apply check_authentication_store;
          intros; apply get_gate_pass_details_store|].
  split; [intros; by apply check_authentication_store|].
  split; [apply check_authentication_store;
          intros; apply get_statistics_store|].
  intros sort_reverse pass_type. apply check_authentication_store.
  intros s0. unfold get_gate_passes, try_except, bind, lift, ret,
    safe_firestore_query.
  by destruct (sort_reverse _ _).
Qed.

(** ** Writes that the store client refuses *)

(** X23: a status update with an accepted status for a stored record is
    answered 200, with its fields written over the record, exactly when the
    store client accepts the fields; when the client refuses them, for
    instance a reason that is an integer outside 64 bits, the answer is 500
    and the store is left as it was. *)
Theorem update_gate_pass_write id e req (s : store) (m d : doc) :
  is_options req = false →
  req_json req = JObj m →
  status_ok (JObj m) = true →
  s !! id = Some d →
  let fields := update_fields e (default JNull (m !! "status"))
                  (default (JStr "") (m !! "reason")) in
  let r := update_gate_pass id e req s in
  match encode_error e fields with
  | None => code r.1 = 200%nat ∧ r.2 = <[id := fields ∪ d]> s
  | Some ex =>
      r.1 = jsonify [("error", JStr (str_exn ex))] 500 ∧ r.2 = s
  end.
Proof.
  intros Hopt Hbody Hst Hid. cbv zeta.
  destruct (encode_error e _) as [ex|] eqn:Henc.
  - by rewrite (update_gate_pass_refused _ _ _ _ _ _ _ Hopt Hbody Hst Hid Henc).
  - by destruct (update_gate_pass_known _ _ _ _ _ _ Hopt Hbody Hst Hid Henc)
      as (r & H200 & ->).
Qed.

Lemma update_gate_pass_write_witness :
  let r := update_gate_pass "id-1" Sample.e2
             (Sample.post (JObj (dict [("status", JStr "Rejected");
                                       ("reason", JNum (2 ^ 64))])))
             Sample.s1 in
  r.1 = jsonify [("error", JStr "the value cannot be encoded")] 500 ∧
  r.2 = Sample.s1.
Proof.
  apply (update_gate_pass_write "id-1" Sample.e2
           (Sample.post (JObj (dict [("status", JStr "Rejected");
                                     ("reason", JNum (2 ^ 64))])))
           Sample.s1
           (dict [("status", JStr "Rejected"); ("reason", JNum (2 ^ 64))])
           (stamped Sample.e1 Sample.fields)).
  - reflexivity.
  - reflexivity.
  - reflexivity.
  - rewrite sample_s1. apply lookup_insert_eq.
Defined.

(** A valid submission with one more field whose name is empty is refused
    by the sample encoder: the answer is 500 and nothing is stored. *)
Example submit_gate_pass_empty_field_name :
  submit_gate_pass Sample.e1
    (Sample.post (JObj (<["" := JStr "x"]> Sample.fields))) ∅ =
    (jsonify [("error", JStr "the value cannot be encoded")] 500, ∅).
Proof.
  by rewrite (submit_gate_pass_refused Sample.e1 _ ∅
                (<["" := JStr "x"]> Sample.fields)
                (ValueError "the value cannot be encoded")).
Qed.
